(** * csa_prediction_engine: job submission, polling and dispatch

    A shallow embedding of the client-side orchestration code of the CSA
    prediction engine:

    - [helpers/_postmaster.py]: the submission wrapper built by
      [_create_post_job_decorator], the four decorated submitters and
      [_get_results];
    - [bin/_workers.py]: [_execute_prediction] and its thin callers;
    - [bin/multi_tasks.py]: [predict_grid] and [predict_grid_singularity];
    - [api_client.py]: the task table [_TASK_MAP] and [predict_psr];
    - [psrlib.py]: [predict_maxfit] and [predict_grid].

    Python values are a small universe [pyval]; calls that leave the
    process (job submission, polling, the clock) are fields of a record of
    collaborators, and every invocation is recorded in a trace so that
    statements about "no network call" can be read off the final state. *)

From Stdlib Require Import ZArith Floats.
From stdpp Require Import base gmap strings list.

Open Scope string_scope.

(** ** Python values *)

Module Py.

Local Set Warnings "-register-all".

(** The values that flow through the client.  Arrays carry their shape and
    their flattened contents; objects carry their class name and their
    attribute dictionary. *)
Inductive pyval : Type :=
| PyNone
| PyBool (b : bool)
| PyInt (n : Z)
| PyFloat (x : float)
| PyStr (s : string)
| PyTuple (items : list pyval)
| PyList (items : list pyval)
| PyDict (items : list (string * pyval))
| PyArray (shape : list nat) (data : list float)
| PyObject (cls : string) (attrs : list (string * pyval)).

(** A dictionary with string keys, in insertion order. *)
Definition dict : Type := list (string * pyval).

(** [v is None] *)
Definition is_none (v : pyval) : bool :=
  match v with PyNone => true | _ => false end.

(** [d.get(k, default)] on the association list of a dictionary. *)
Fixpoint dict_get (d : dict) (k : string) (default : pyval) : pyval :=
  match d with
  | [] => default
  | (k', v) :: d' => if String.eqb k' k then v else dict_get d' k default
  end.

Definition dict_keys (d : dict) : list string := map fst d.

(** Exceptions.  [TypeError], [AttributeError] and [ValueError] are the
    Python built-ins the code raises or documents; [InvalidShapeError],
    [InvalidHandleError] and [UnroutableTaskError] are the error classes named
    by the design document, which nothing in the code raises; [RemoteError]
    is whatever a collaborator raises (transport failure, server-side
    rejection raised as an exception). *)
Inductive exn : Type :=
| TypeError (msg : string)
| AttributeError (msg : string)
| ValueError (msg : string)
| InvalidShapeError
| InvalidHandleError
| UnroutableTaskError
| RemoteError (msg : string).

(** The result of evaluating an expression: a value or a raised exception. *)
Inductive outcome (A : Type) : Type :=
| Ok (a : A)
| Raise (e : exn).
Arguments Ok {A} a.
Arguments Raise {A} e.

(** [obj.name] for an instance attribute: only [PyObject] carries instance
    attributes; the built-in values have none. *)
Definition py_getattr (obj : pyval) (name : string) : outcome pyval :=
  match obj with
  | PyObject cls attrs =>
      match find (fun kv => String.eqb (fst kv) name) attrs with
      | Some kv => Ok (snd kv)
      | None => Raise (AttributeError ("'" ++ cls ++ "' object has no attribute '" ++ name ++ "'"))
      end
  | _ => Raise (AttributeError ("object has no attribute '" ++ name ++ "'"))
  end.

(** [obj.get(key, default)]: defined on dictionaries; any other value of the
    universe has no [get] method. *)
Definition py_get (obj : pyval) (key : string) (default : pyval) : outcome pyval :=
  match obj with
  | PyDict d => Ok (dict_get d key default)
  | _ => Raise (AttributeError "object has no attribute 'get'")
  end.

(** [a, b = v]: tuples and lists of length two unpack; other lengths raise
    [ValueError], the remaining values of the universe are treated as not
    iterable. *)
Definition unpack2 (v : pyval) : outcome (pyval * pyval) :=
  match v with
  | PyTuple [a; b] | PyList [a; b] => Ok (a, b)
  | PyTuple _ | PyList _ => Raise (ValueError "wrong number of values to unpack")
  | _ => Raise (TypeError "cannot unpack non-iterable object")
  end.

(** Truth value of an object used as a flag. *)
Definition py_truthy (v : pyval) : bool :=
  match v with
  | PyNone => false
  | PyBool b => b
  | PyInt n => negb (n =? 0)%Z
  | PyFloat x => negb (PrimFloat.eqb x 0)
  | PyStr s => negb (String.eqb s "")
  | PyTuple l | PyList l => negb (Nat.eqb (length l) 0)
  | PyDict d => negb (Nat.eqb (length d) 0)
  | PyArray _ data => match data with [x] => negb (PrimFloat.eqb x 0) | _ => true end
  | PyObject _ _ => true
  end.

End Py.
Export Py.

(** ** Enumerations of the common library *)

(** Modelled from the spec: [csa_common_lib.enum_types.functions.PSRFunction]
    is not among the sources.  The function family tag is one of PSR,
    MAXFIT, GRID, GRID_SINGULARITY and their binary variants. *)
Inductive PSRFunction : Type :=
| PSR
| PSR_BINARY
| MAXFIT
| MAXFIT_BINARY
| GRID
| GRID_BINARY
| GRID_SINGULARITY
| GRID_SINGULARITY_BINARY.

#[global] Instance PSRFunction_eq_dec : EqDecision PSRFunction.
Proof. solve_decision. Defined.

Definition PSRFunction_code (f : PSRFunction) : nat :=
  match f with
  | PSR => 0 | PSR_BINARY => 1 | MAXFIT => 2 | MAXFIT_BINARY => 3
  | GRID => 4 | GRID_BINARY => 5 | GRID_SINGULARITY => 6
  | GRID_SINGULARITY_BINARY => 7
  end.

Definition PSRFunction_of_code (n : nat) : PSRFunction :=
  match n with
  | 0 => PSR | 1 => PSR_BINARY | 2 => MAXFIT | 3 => MAXFIT_BINARY
  | 4 => GRID | 5 => GRID_BINARY | 6 => GRID_SINGULARITY
  | _ => GRID_SINGULARITY_BINARY
  end.

#[global] Instance PSRFunction_countable : Countable PSRFunction.
Proof.
  apply (inj_countable' PSRFunction_code PSRFunction_of_code).
  intros []; reflexivity.
Defined.

(** Modelled from the spec: [csa_common_lib.enum_types.job_types.JobType]
    is not among the sources.  The task kind is one of Single, MultiY and
    MultiTheta, the three members the task table names; [JOBTYPE_OTHER]
    stands for any other value that may be used as a key of the table (a
    further member of the enumeration, or an unrelated object such as
    [None]). *)
Inductive JobType : Type :=
| SINGLE
| MULTI_THETA
| MULTI_Y
| JOBTYPE_OTHER (name : string).

#[global] Instance JobType_eq_dec : EqDecision JobType.
Proof. solve_decision. Defined.

Definition JobType_code (j : JobType) : nat + string :=
  match j with
  | SINGLE => inl 0
  | MULTI_THETA => inl 1
  | MULTI_Y => inl 2
  | JOBTYPE_OTHER s => inr s
  end.

Definition JobType_of_code (c : nat + string) : JobType :=
  match c with
  | inl 0 => SINGLE
  | inl 1 => MULTI_THETA
  | inl _ => MULTI_Y
  | inr s => JOBTYPE_OTHER s
  end.

#[global] Instance JobType_countable : Countable JobType.
Proof.
  apply (inj_countable' JobType_code JobType_of_code).
  intros []; reflexivity.
Defined.

(** ** The outside world *)

(** What leaves the process.  One event per invocation of [post_job], of
    [poll_for_results], and per line printed. *)
Inductive event : Type :=
| NetPostJob (function_type : PSRFunction) (y X theta : pyval) (kwargs : dict)
| NetPoll (job_id job_code : pyval)
| Stdout (line : string).

Definition is_poll (e : event) : bool :=
  match e with NetPoll _ _ => true | _ => false end.

(** The function types handed to [post_job], in call order. *)
Definition posted_tags (t : list event) : list PSRFunction :=
  omap (fun e => match e with NetPostJob f _ _ _ _ => Some f | _ => None end) t.

(** The collaborators of the client that are not part of the sources: the
    payload handler ([post_job], [poll_for_results]), the conversion helper
    of the common library, the formatting of a value inside an f-string and
    the wall clock.  [Env] is whatever state they depend on (the remote
    service, the network, the time). *)
Record Collaborators : Type := {
  Env : Type;
  post_job_srv :
    PSRFunction -> pyval -> pyval -> pyval -> dict ->
    Env -> outcome (pyval * pyval * pyval) * Env;
  poll_for_results_srv : pyval -> pyval -> Env -> outcome pyval * Env;
  convert_ndarray_to_list : pyval -> outcome dict;
  format_value : pyval -> string;
  clock : Env -> float * Env
}.

(** The state threaded through the client: the collaborators' state and the
    trace of what has been observed so far. *)
Record World (C : Collaborators) : Type := mkWorld {
  remote : Env C;
  trace : list event
}.
Arguments mkWorld {C} remote trace.
Arguments remote {C} w.
Arguments trace {C} w.

(** ** A state-and-exception monad *)

Definition M (C : Collaborators) (A : Type) : Type :=
  World C -> outcome A * World C.

Definition ret {C A} (a : A) : M C A := fun w => (Ok a, w).

Definition raise {C A} (e : exn) : M C A := fun w => (Raise e, w).

Definition bind {C A B} (m : M C A) (k : A -> M C B) : M C B :=
  fun w =>
    match m w with
    | (Ok a, w') => k a w'
    | (Raise e, w') => (Raise e, w')
    end.

(** A pure computation that may raise. *)
Definition lift {C A} (o : outcome A) : M C A :=
  fun w => (o, w).

Definition emit {C} (e : event) : M C unit :=
  fun w => (Ok tt, mkWorld (remote w) (trace w ++ [e])).

Declare Scope py_scope.
Delimit Scope py_scope with py.
Notation "'let*' p '<-' m 'in' k" := (bind m (fun p => k))
  (at level 10, p pattern, m at level 100, k at level 200) : py_scope.
Notation "m ;;; k" := (bind m (fun _ => k))
  (at level 100, right associativity) : py_scope.
Open Scope py_scope.

(** [print(line)] *)
Definition print {C} (line : string) : M C unit := emit (Stdout line).

(** [time.time()] *)
Definition time_time {C} : M C float :=
  fun w => let '(t, e) := clock C (remote w) in (Ok t, mkWorld e (trace w)).

(** ** Calling conventions *)

(** A formal parameter of a Python function, with its default if any. *)
Record param : Type := mkparam {
  p_name : string;
  p_default : option pyval
}.

Definition dict_lookup (d : dict) (k : string) : option pyval :=
  snd <$> find (fun kv => String.eqb (fst kv) k) d.

(** Defaults for the parameters left unbound; a parameter without default
    that is still unbound is an error. *)
Fixpoint fill_defaults (fname : string) (params : list param) (bound : dict)
  : outcome dict :=
  match params with
  | [] => Ok []
  | p :: ps =>
      match dict_lookup bound (p_name p), p_default p with
      | Some v, _ | None, Some v =>
          match fill_defaults fname ps bound with
          | Ok rest => Ok ((p_name p, v) :: rest)
          | Raise e => Raise e
          end
      | None, None =>
          Raise (TypeError (fname ++ "() missing required positional argument '"
                                  ++ p_name p ++ "'"))
      end
  end.

(** Binding of the actual arguments of a call (positional arguments [args],
    keywords [kwargs]) to the parameters of a function that has no variadic
    parameter: positional arguments first, then the keywords in order (an
    unknown keyword or one that is already bound is an error), then the
    count of positionals, then the defaults. *)
Definition bind_args (fname : string) (params : list param)
    (args : list pyval) (kwargs : dict) : outcome dict :=
  let names := map p_name params in
  let positional := zip names args in
  let bound_pos k := bool_decide (k ∈ map fst positional) in
  let known k := bool_decide (k ∈ names) in
  match find (fun kv => negb (known (fst kv)) || bound_pos (fst kv)) kwargs with
  | Some kv =>
      if known (fst kv)
      then Raise (TypeError (fname ++ "() got multiple values for argument '"
                                   ++ fst kv ++ "'"))
      else Raise (TypeError (fname ++ "() got an unexpected keyword argument '"
                                   ++ fst kv ++ "'"))
  | None =>
      if Nat.ltb (length names) (length args)
      then Raise (TypeError (fname ++ "() takes fewer positional arguments than were given"))
      else fill_defaults fname params (positional ++ kwargs)%list
  end.

(** What a module binds a name to: a function that can be called with
    positional and keyword arguments, or any other object.  Bindings that
    no function of this development ever calls (data, classes, imported
    helpers) are listed as objects. *)
Inductive member (C : Collaborators) : Type :=
| Function (call : list pyval -> dict -> M C pyval)
| Object.
Arguments Function {C} call.
Arguments Object {C}.

(** [module.name] *)
Definition module_getattr {C} (m : gmap string (member C)) (name : string)
  : M C (member C) :=
  match m !! name with
  | Some f => ret f
  | None => raise (AttributeError ("module has no attribute '" ++ name ++ "'"))
  end.

(** A call of [f] with positional arguments [args] and keywords [kwargs]. *)
Definition py_call {C} (f : member C) (args : list pyval) (kwargs : dict)
  : M C pyval :=
  match f with
  | Function call => call args kwargs
  | Object => raise (TypeError "object is not callable")
  end.

(** ** helpers/_postmaster.py *)

Module postmaster.
Section WithCollaborators.
Context {C : Collaborators}.

(** [_payload_handler.post_job(function_type, y=y, X=X, theta=theta,
    **options_dict)]: a key of [options_dict] that repeats one of the explicit
    keywords is rejected at the call site; otherwise the call is made and
    recorded. *)
Definition post_job (function_type : PSRFunction) (y X theta : pyval)
    (options_dict : dict) : M C (pyval * pyval * pyval) :=
  match find (fun k => bool_decide (k ∈ ["y"; "X"; "theta"])) (dict_keys options_dict) with
  | Some k =>
      raise (TypeError ("post_job() got multiple values for keyword argument '"
                          ++ k ++ "'"))
  | None =>
      fun w =>
        let '(r, e) := post_job_srv C function_type y X theta options_dict (remote w) in
        (r, mkWorld e (trace w ++ [NetPostJob function_type y X theta options_dict]))
  end.

(** [_payload_handler.poll_for_results(job_id, job_code)] *)
Definition poll_for_results (job_id job_code : pyval) : M C pyval :=
  fun w =>
    let '(r, e) := poll_for_results_srv C job_id job_code (remote w) in
    (r, mkWorld e (trace w ++ [NetPoll job_id job_code])).

(** Mapping from base function types to their binary equivalents. *)
Definition _BINARY_FUNCTION_MAP : gmap PSRFunction PSRFunction :=
  {[ PSR := PSR_BINARY;
     MAXFIT := MAXFIT_BINARY;
     GRID := GRID_BINARY;
     GRID_SINGULARITY := GRID_SINGULARITY_BINARY ]}.

(** The text printed when the server answers without a job handle. *)
Definition diagnostic (function_name : string) (response : pyval) : string :=
  "csanalytics:postmaster:_jobs:" ++ function_name ++ ":" ++ format_value C response.

(** The type of a submitter: [(y, X, theta, Options, is_binary=False)]. *)
Definition submitter : Type :=
  pyval -> pyval -> pyval -> pyval -> bool -> M C (pyval * pyval).

(** The function a decorated submitter stands for before decoration. *)
Definition decorated : Type :=
  pyval -> pyval -> pyval -> pyval -> bool -> M C pyval.

(** [wrapper(y, X, theta, Options, is_binary=False)], the innermost function
    of the factory, closed over [base_function_type], [function_name] and the
    decorated function [func], which it never calls. *)
Definition wrapper (base_function_type : PSRFunction) (function_name : string)
    (func : decorated) : submitter :=
  fun y X theta Options is_binary =>
    let* options <- lift (py_getattr Options "options") in
    let* options_dict <- lift (convert_ndarray_to_list C options) in
    let function_type :=
      if is_binary
      then default base_function_type (_BINARY_FUNCTION_MAP !! base_function_type)
      else base_function_type in
    let* (response, job_id, job_code) <-
      post_job function_type y X theta options_dict in
    (if negb (is_none response) && is_none job_id && is_none job_code
     then print (diagnostic function_name response)
     else ret tt) ;;;
    ret (job_id, job_code).

(** [decorator(func)] returns [wrapper]. *)
Definition decorator (base_function_type : PSRFunction) (function_name : string)
    (func : decorated) : submitter :=
  wrapper base_function_type function_name func.

(** [_create_post_job_decorator(base_function_type, function_name)] returns
    [decorator]. *)
Definition _create_post_job_decorator (base_function_type : PSRFunction)
    (function_name : string) : decorated -> submitter :=
  decorator base_function_type function_name.

(** The body [pass] of the four decorated functions. *)
Definition pass_body : decorated :=
  fun _ _ _ _ _ => ret PyNone.

Definition _post_predict_inputs : submitter :=
  _create_post_job_decorator PSR "_post_predict_inputs" pass_body.

Definition _post_maxfit_inputs : submitter :=
  _create_post_job_decorator MAXFIT "_post_maxfit_inputs" pass_body.

Definition _post_grid_inputs : submitter :=
  _create_post_job_decorator GRID "_post_grid_inputs" pass_body.

Definition _post_grid_singularity_inputs : submitter :=
  _create_post_job_decorator GRID_SINGULARITY "_post_grid_singularity_inputs" pass_body.

(** [_get_results(job_id, job_code)] *)
Definition _get_results (job_id job_code : pyval) : M C (pyval * pyval) :=
  let yhat := PyNone in
  let output_details := PyNone in
  if negb (is_none job_id) && negb (is_none job_code) then
    let* output_details <- poll_for_results job_id job_code in
    let* yhat <- lift (py_get output_details "yhat" PyNone) in
    ret (yhat, output_details)
  else
    ret (yhat, output_details).

(** [_get_results_worker(job_id, job_code)] *)
Definition _get_results_worker (job_id job_code : pyval) : M C (pyval * pyval) :=
  _get_results job_id job_code.

(** The functions above as seen by a caller that passes positional and
    keyword arguments. *)
Definition submitter_params : list param :=
  [ mkparam "y" None; mkparam "X" None; mkparam "theta" None;
    mkparam "Options" None; mkparam "is_binary" (Some (PyBool false)) ].

Definition arg (bound : dict) (name : string) : pyval := dict_get bound name PyNone.

Definition submitter_function (name : string) (f : submitter) : member C :=
  Function (fun args kwargs =>
    let* b <- lift (bind_args name submitter_params args kwargs) in
    let* (job_id, job_code) <-
      f (arg b "y") (arg b "X") (arg b "theta") (arg b "Options")
        (py_truthy (arg b "is_binary")) in
    ret (PyTuple [job_id; job_code])).

Definition results_function (name : string)
    (f : pyval -> pyval -> M C (pyval * pyval)) : member C :=
  Function (fun args kwargs =>
    let* b <- lift (bind_args name
                      [mkparam "job_id" None; mkparam "job_code" None] args kwargs) in
    let* (yhat, output_details) <- f (arg b "job_id") (arg b "job_code") in
    ret (PyTuple [yhat; output_details])).

(** Every name bound at the top level of the module: its imports, the
    mapping, the decorator factory and the functions it defines. *)
Definition namespace : gmap string (member C) :=
  list_to_map
    [ ("_get_apikeys", Object);
      ("post_job", Object);
      ("poll_for_results", Object);
      ("get_quota", Object);
      ("convert_ndarray_to_list", Object);
      ("PSRFunction", Object);
      ("PredictionOptions", Object);
      ("MaxFitOptions", Object);
      ("GridOptions", Object);
      ("Callable", Object);
      ("wraps", Object);
      ("_BINARY_FUNCTION_MAP", Object);
      ("_create_post_job_decorator", Object);
      ("_post_predict_inputs",
        submitter_function "_post_predict_inputs" _post_predict_inputs);
      ("_post_maxfit_inputs",
        submitter_function "_post_maxfit_inputs" _post_maxfit_inputs);
      ("_post_grid_inputs",
        submitter_function "_post_grid_inputs" _post_grid_inputs);
      ("_post_grid_singularity_inputs",
        submitter_function "_post_grid_singularity_inputs" _post_grid_singularity_inputs);
      ("_get_results", results_function "_get_results" _get_results);
      ("_get_results_worker", results_function "_get_results_worker" _get_results_worker);
      ("_get_quota", Object);
      ("__name__", Object); ("__doc__", Object); ("__file__", Object);
      ("__package__", Object); ("__loader__", Object); ("__spec__", Object);
      ("__builtins__", Object); ("__cached__", Object) ].

End WithCollaborators.

Arguments diagnostic C function_name response : clear implicits.

End postmaster.

(** ** bin/_workers.py *)

Module workers.
Section WithCollaborators.
Context {C : Collaborators}.

(** [_execute_prediction(y, X, theta, Options, post_function,
    poll_results=False, is_binary=False)] *)
Definition _execute_prediction (y X theta Options : pyval)
    (post_function : postmaster.submitter (C:=C))
    (poll_results is_binary : bool) : M C (pyval * pyval) :=
  let* (job_id, job_code) <- post_function y X theta Options is_binary in
  if poll_results then
    let* (yhat, yhat_details) <- postmaster._get_results_worker job_id job_code in
    ret (yhat, yhat_details)
  else
    ret (job_id, job_code).

Definition predict_psr (y X theta Options : pyval) (poll_results is_binary : bool)
  : M C (pyval * pyval) :=
  _execute_prediction y X theta Options postmaster._post_predict_inputs
    poll_results is_binary.

Definition predict_maxfit (y X theta Options : pyval) (poll_results is_binary : bool)
  : M C (pyval * pyval) :=
  _execute_prediction y X theta Options postmaster._post_maxfit_inputs
    poll_results is_binary.

Definition predict_grid (y X theta Options : pyval) (poll_results is_binary : bool)
  : M C (pyval * pyval) :=
  _execute_prediction y X theta Options postmaster._post_grid_inputs
    poll_results is_binary.

Definition predict_grid_singularity (y X theta Options : pyval)
    (poll_results is_binary : bool) : M C (pyval * pyval) :=
  _execute_prediction y X theta Options postmaster._post_grid_singularity_inputs
    poll_results is_binary.

Definition predict_psr_binary (y X theta Options : pyval) (poll_results : bool) :=
  predict_psr y X theta Options poll_results true.

Definition predict_maxfit_binary (y X theta Options : pyval) (poll_results : bool) :=
  predict_maxfit y X theta Options poll_results true.

Definition predict_grid_binary (y X theta Options : pyval) (poll_results : bool) :=
  predict_grid y X theta Options poll_results true.

Definition predict_grid_singularity_binary (y X theta Options : pyval)
    (poll_results : bool) :=
  predict_grid_singularity y X theta Options poll_results true.

End WithCollaborators.
End workers.

(** ** bin/multi_tasks.py *)

Module multi_tasks.
Section WithCollaborators.
Context {C : Collaborators}.

(** [predict_maxfit(y, X, theta, Options, poll_results=False)] *)
Definition predict_maxfit (y X theta Options : pyval) (poll_results : bool)
  : M C (pyval * pyval) :=
  let* (job_id, job_code) <- postmaster._post_maxfit_inputs y X theta Options false in
  if poll_results then
    let* (yhat, yhat_details) <- postmaster._get_results_worker job_id job_code in
    ret (yhat, yhat_details)
  else
    ret (job_id, job_code).

(** [predict_grid(y, X, theta, Options, poll_results=True)] *)
Definition predict_grid (y X theta Options : pyval) (poll_results : bool)
  : M C (pyval * pyval) :=
  let* (job_id, job_code) <- postmaster._post_grid_inputs y X theta Options false in
  if poll_results then
    let* (yhat, yhat_details) <- postmaster._get_results job_id job_code in
    ret (yhat, yhat_details)
  else
    ret (job_id, job_code).

(** [predict_grid_singularity(y, X, theta, Options, poll_results=True)] *)
Definition predict_grid_singularity (y X theta Options : pyval) (poll_results : bool)
  : M C (pyval * pyval) :=
  let* (job_id, job_code) <- postmaster._post_grid_inputs y X theta Options false in
  if poll_results then
    let* (yhat, yhat_details) <- postmaster._get_results job_id job_code in
    ret (yhat, yhat_details)
  else
    ret (job_id, job_code).

End WithCollaborators.
End multi_tasks.

(** ** helpers/_router.py *)

Module router.

(** The shape of a two-dimensional array: (rows, columns). *)
Definition shape_of (a : pyval) : option (nat * nat) :=
  match a with
  | PyArray [r; c] _ => Some (r, c)
  | _ => None
  end.

(** Modelled from the spec: [helpers/_router.py] is not among the sources.
    Classification fails when [y] has more than one column and [theta] more
    than one row, when the row count of [X] differs from that of [y], or
    when the column count of [X] differs from that of [theta].  Otherwise
    the decision rule is evaluated in order: one column of [y] and one row
    of [theta] is Single; else more than one column of [y] is MultiY; else
    more than one row of [theta] is MultiTheta.  Exactly one kind is
    returned or classification fails, so shapes that satisfy no rule are
    rejected as well.  The exception is the one the code names: the
    docstrings of the public functions of [api_client.py] document
    [ValueError], raised if both multi-y and multi-theta are specified
    simultaneously or if the dimensions of [y], [X] and [theta] are not
    compatible; no other error class for shapes exists in the sources. *)
Definition classify (y X theta : nat * nat) : outcome JobType :=
  if Nat.ltb 1 (snd y) && Nat.ltb 1 (fst theta)
  then Raise (ValueError "multi-y and multi-theta are specified simultaneously")
  else if negb (Nat.eqb (fst X) (fst y))
  then Raise (ValueError "the dimensions of y, X and theta are not compatible")
  else if negb (Nat.eqb (snd X) (snd theta))
  then Raise (ValueError "the dimensions of y, X and theta are not compatible")
  else if Nat.eqb (snd y) 1 && Nat.eqb (fst theta) 1 then Ok SINGLE
  else if Nat.ltb 1 (snd y) then Ok MULTI_Y
  else if Nat.ltb 1 (fst theta) then Ok MULTI_THETA
  else Raise (ValueError "the dimensions of y, X and theta are not compatible").

(** Modelled from the spec: [determine_task_type(y, X, theta)] reads the
    shapes of its three arguments and classifies them; an argument that is
    not a two-dimensional array has no compatible dimensions. *)
Definition determine_task_type (y X theta : pyval) : outcome JobType :=
  match shape_of y, shape_of X, shape_of theta with
  | Some sy, Some sX, Some st => classify sy sX st
  | _, _, _ =>
      Raise (ValueError "the dimensions of y, X and theta are not compatible")
  end.

End router.

(** ** api_client.py *)

Module api_client.

(** The three callables the task table refers to. *)
Inductive executor : Type :=
| single_tasks_predict
| run_multi_theta
| run_multi_y.

(** Use a mapping to call the appropriate function based on task type. *)
Definition _TASK_MAP : gmap JobType executor :=
  {[ SINGLE := single_tasks_predict;
     MULTI_THETA := run_multi_theta;
     MULTI_Y := run_multi_y ]}.

(** Modelled from the spec: [csa_common_lib.classes.prediction_receipt] is
    not among the sources.  A receipt is an immutable record of the function
    family, the request tensors, the options bag, the produced [yhat] and the
    elapsed duration; building it has no side effect and cannot fail. *)
Record PredictionReceipt : Type := mkReceipt {
  receipt_model_type : PSRFunction;
  receipt_y : pyval;
  receipt_X : pyval;
  receipt_theta : pyval;
  receipt_options : pyval;
  receipt_yhat : pyval;
  receipt_prediction_duration : float
}.

(** What a public prediction function returns: a pair, or a triple that ends
    with the receipt. *)
Inductive prediction : Type :=
| Pair (yhat yhat_details : pyval)
| Triple (yhat yhat_details : pyval) (receipt : PredictionReceipt).

Definition primary (p : prediction) : pyval * pyval :=
  match p with
  | Pair yhat yhat_details | Triple yhat yhat_details _ => (yhat, yhat_details)
  end.

Definition receipt_of (p : prediction) : option PredictionReceipt :=
  match p with
  | Pair _ _ => None
  | Triple _ _ r => Some r
  end.

Section WithCollaborators.
Context {C : Collaborators}.

(** The parts of the package the module imports that are not among the
    sources: the router and the three executors (each called as
    [f(function_type, y, X, theta, Options)] and unpacked into two
    values). *)
Record Imports : Type := {
  determine_task_type : pyval -> pyval -> pyval -> outcome JobType;
  run_executor : executor -> PSRFunction -> pyval -> pyval -> pyval -> pyval ->
                 M C (pyval * pyval)
}.

Variable I : Imports.

(** [prediction_function(function_type, y, X, theta, Options)] where
    [prediction_function] is the result of [_TASK_MAP.get(...)]: calling
    [None] is a [TypeError]. *)
Definition call_prediction_function (prediction_function : option executor)
    (function_type : PSRFunction) (y X theta Options : pyval)
  : M C (pyval * pyval) :=
  match prediction_function with
  | Some f => run_executor I f function_type y X theta Options
  | None => raise (TypeError "'NoneType' object is not callable")
  end.

(** [predict_psr(y, X, theta, Options, is_return_receipt=False)] *)
Definition predict_psr (y X theta Options : pyval) (is_return_receipt : bool)
  : M C prediction :=
  let* start_time <- time_time in
  let* task_type <- lift (determine_task_type I y X theta) in
  let prediction_function := _TASK_MAP !! task_type in
  let* (yhat, yhat_details) <-
    call_prediction_function prediction_function PSR y X theta Options in
  let* end_time <- time_time in
  let prediction_duration := (end_time - start_time)%float in
  if is_return_receipt then
    let receipt := mkReceipt PSR y X theta Options yhat prediction_duration in
    ret (Triple yhat yhat_details receipt)
  else
    ret (Pair yhat yhat_details).

(** [predict_maxfit(y, X, theta, Options, is_return_receipt=False)] *)
Definition predict_maxfit (y X theta Options : pyval) (is_return_receipt : bool)
  : M C prediction :=
  let* start_time <- time_time in
  let* task_type <- lift (determine_task_type I y X theta) in
  let prediction_function := _TASK_MAP !! task_type in
  let* (yhat, yhat_details) <-
    call_prediction_function prediction_function MAXFIT y X theta Options in
  let* end_time <- time_time in
  let prediction_duration := (end_time - start_time)%float in
  if is_return_receipt then
    let receipt := mkReceipt MAXFIT y X theta Options yhat prediction_duration in
    ret (Triple yhat yhat_details receipt)
  else
    ret (Pair yhat yhat_details).

(** [predict_grid(y, X, theta, Options, is_return_receipt=False)] *)
Definition predict_grid (y X theta Options : pyval) (is_return_receipt : bool)
  : M C prediction :=
  let* start_time <- time_time in
  let* task_type <- lift (determine_task_type I y X theta) in
  let prediction_function := _TASK_MAP !! task_type in
  let* (yhat, yhat_details) <-
    call_prediction_function prediction_function GRID y X theta Options in
  let* end_time <- time_time in
  let prediction_duration := (end_time - start_time)%float in
  if is_return_receipt then
    let receipt := mkReceipt GRID y X theta Options yhat prediction_duration in
    ret (Triple yhat yhat_details receipt)
  else
    ret (Pair yhat yhat_details).

(** [predict_grid_singularity(y, X, theta, Options, is_return_receipt=False)] *)
Definition predict_grid_singularity (y X theta Options : pyval)
    (is_return_receipt : bool) : M C prediction :=
  let* start_time <- time_time in
  let* task_type <- lift (determine_task_type I y X theta) in
  let prediction_function := _TASK_MAP !! task_type in
  let* (yhat, yhat_details) <-
    call_prediction_function prediction_function GRID_SINGULARITY y X theta Options in
  let* end_time <- time_time in
  let prediction_duration := (end_time - start_time)%float in
  if is_return_receipt then
    let receipt :=
      mkReceipt GRID_SINGULARITY y X theta Options yhat prediction_duration in
    ret (Triple yhat yhat_details receipt)
  else
    ret (Pair yhat yhat_details).

End WithCollaborators.

(** The imports with the modelled router and arbitrary executors. *)
Definition with_router {C : Collaborators}
    (run : executor -> PSRFunction -> pyval -> pyval -> pyval -> pyval ->
           M C (pyval * pyval)) : Imports :=
  {| determine_task_type := router.determine_task_type;
     run_executor := run |}.

End api_client.

(** ** psrlib.py *)

Module psrlib.
Section WithPostmaster.
Context {C : Collaborators}.

(** The module object bound to [csa_postmaster] by the import at the top of
    the file. *)
Variable csa_postmaster : gmap string (member C).

(** [predict(y, X, theta, threshold=None, is_threshold_percent=True,
    most_eval=True, eval_type="relevance", cov_inv=None,
    poll_results=False)] *)
Definition predict
    (y X theta threshold is_threshold_percent most_eval eval_type cov_inv : pyval)
    (poll_results : bool) : M C (pyval * pyval) :=
  let* post <- module_getattr csa_postmaster "_post_predict_inputs" in
  let* r <- py_call post []
              [ ("y", y); ("X", X); ("theta", theta); ("threshold", threshold);
                ("is_threshold_percent", is_threshold_percent);
                ("most_eval", most_eval); ("eval_type", eval_type);
                ("cov_inv", cov_inv) ] in
  let* (job_id, job_code) <- lift (unpack2 r) in
  if poll_results then
    let* get <- module_getattr csa_postmaster "_get_results" in
    let* r <- py_call get [job_id; job_code] [] in
    let* (yhat, yhat_details) <- lift (unpack2 r) in
    ret (yhat, yhat_details)
  else
    ret (job_id, job_code).

(** [predict_maxfit(y, X, theta, threshold_range=(0,1), stepsize=0.20,
    most_eval=True, eval_type="relevance", cov_inv=None,
    poll_results=False)] *)
Definition predict_maxfit
    (y X theta threshold_range stepsize most_eval eval_type cov_inv : pyval)
    (poll_results : bool) : M C (pyval * pyval) :=
  let* post <- module_getattr csa_postmaster "_post_maxfit_inputs" in
  let* r <- py_call post []
              [ ("y", y); ("X", X); ("theta", theta); ("most_eval", most_eval);
                ("eval_type", eval_type); ("cov_inv", cov_inv) ] in
  let* (job_id, job_code) <- lift (unpack2 r) in
  if poll_results then
    let* get <- module_getattr csa_postmaster "_get_results" in
    let* r <- py_call get [job_id; job_code] [] in
    let* (yhat, yhat_details) <- lift (unpack2 r) in
    ret (yhat, yhat_details)
  else
    ret (job_id, job_code).

(** [predict_grid(y, X, theta, threshold_range=(0,1), stepsize=0.20,
    most_eval=True, eval_type="all", k=None, return_grid=False,
    poll_results=True)] *)
Definition predict_grid
    (y X theta threshold_range stepsize most_eval eval_type k return_grid : pyval)
    (poll_results : bool) : M C (pyval * pyval) :=
  let* post <- module_getattr csa_postmaster "_post_ckt_inputs" in
  let* r <- py_call post
              [ y; X; theta; threshold_range; stepsize; most_eval; eval_type;
                k; return_grid ] [] in
  let* (job_id, job_code) <- lift (unpack2 r) in
  if poll_results then
    let* get <- module_getattr csa_postmaster "_get_results" in
    let* r <- py_call get [job_id; job_code] [] in
    let* (yhat, yhat_details) <- lift (unpack2 r) in
    ret (yhat, yhat_details)
  else
    ret (job_id, job_code).

End WithPostmaster.
End psrlib.

(** ** Concrete collaborators

    A remote service small enough to run by hand.  Its state counts the
    requests served; an accepting service answers every submission with a
    job handle, a rejecting one with a diagnostic and no handle. *)

Module demo.

Definition service (accepting : bool) : Collaborators :=
  {| Env := nat;
     post_job_srv := fun _ _ _ _ _ n =>
       if accepting
       then (Ok (PyObject "Response" [], PyInt (Z.of_nat n), PyStr "c0de"), S n)
       else (Ok (PyStr "quota exceeded", PyNone, PyNone), S n);
     poll_for_results_srv := fun _ _ n =>
       (Ok (PyDict [("yhat", PyList [PyFloat 1]); ("fit", PyFloat 0)]), S n);
     convert_ndarray_to_list := fun options =>
       match options with
       | PyDict d => Ok d
       | _ => Raise (TypeError "options is not a mapping")
       end;
     format_value := fun v =>
       match v with
       | PyStr s => s
       | _ => "<object>"
       end;
     clock := fun n => (0%float, n) |}.

Definition w0 (accepting : bool) : World (service accepting) :=
  @mkWorld (service accepting) 0%nat [].

(** A request with one dependent variable and one circumstance. *)
Definition y : pyval := PyArray [2; 1] [1; 2]%float.
Definition X : pyval := PyArray [2; 2] [1; 0; 0; 1]%float.
Definition theta : pyval := PyArray [1; 2] [1; 1]%float.
Definition Options : pyval :=
  PyObject "PredictionOptions" [("options", PyDict [("threshold", PyNone)])].

(** Two dependent variables, and three circumstances. *)
Definition y2 : pyval := PyArray [2; 2] [1; 2; 3; 4]%float.
Definition theta3 : pyval := PyArray [3; 2] [1; 1; 2; 2; 3; 3]%float.

(** Executors that submit one job and wait for it. *)
Definition run {accepting : bool} (f : api_client.executor)
    (function_type : PSRFunction) (y X theta Options : pyval)
  : M (service accepting) (pyval * pyval) :=
  workers._execute_prediction y X theta Options
    (postmaster._create_post_job_decorator function_type "demo" postmaster.pass_body)
    true false.

(** A router that hands back a value the task table does not list. *)
Definition lost_imports (accepting : bool) : api_client.Imports (C:=service accepting) :=
  {| api_client.determine_task_type := fun _ _ _ => Ok (JOBTYPE_OTHER "None");
     api_client.run_executor := run |}.

(** A postmaster module whose maxfit submitter accepts any keywords and
    hands them back next to a job number. *)
Definition echo {accepting : bool} (args : list pyval) (kwargs : dict)
  : M (service accepting) pyval :=
  ret (PyTuple [PyInt 7; PyDict kwargs]).

Definition echo_postmaster (accepting : bool)
  : gmap string (member (service accepting)) :=
  <["_post_maxfit_inputs" := Function echo]> postmaster.namespace.

End demo.

(** ** Vocabulary of the statements *)

Section Vocabulary.
Context {C : Collaborators}.
Import postmaster.

(** The family tag the wrapper submits: what the binary flag selects. *)
Definition function_type_of (base_function_type : PSRFunction) (is_binary : bool)
  : PSRFunction :=
  if is_binary
  then default base_function_type (_BINARY_FUNCTION_MAP !! base_function_type)
  else base_function_type.

(** The events one run of the wrapper adds once the server has answered. *)
Definition answered (function_name : string) (function_type : PSRFunction)
    (y X theta : pyval) (d : dict) (response job_id job_code : pyval)
  : list event :=
  NetPostJob function_type y X theta d ::
  (if negb (is_none response) && is_none job_id && is_none job_code
   then [Stdout (diagnostic C function_name response)]
   else []).

(** The binary counterpart of a family, as the design document words it:
    PSR to PSR_BINARY, MAXFIT to MAXFIT_BINARY, GRID to GRID_BINARY,
    GRID_SINGULARITY to GRID_SINGULARITY_BINARY, any other family unchanged. *)
Definition spec_binary_counterpart (f : PSRFunction) : PSRFunction :=
  match f with
  | PSR => PSR_BINARY
  | MAXFIT => MAXFIT_BINARY
  | GRID => GRID_BINARY
  | GRID_SINGULARITY => GRID_SINGULARITY_BINARY
  | other => other
  end.

(** The keywords [psrlib.predict_maxfit] hands to the submitter. *)
Definition maxfit_keywords (y X theta most_eval eval_type cov_inv : pyval) : dict :=
  [ ("y", y); ("X", X); ("theta", theta); ("most_eval", most_eval);
    ("eval_type", eval_type); ("cov_inv", cov_inv) ].

(** The world after one reading of the clock: only the collaborators' state
    may have moved. *)
Definition after_clock (w : World C) : World C :=
  mkWorld (snd (clock C (remote w))) (trace w).

End Vocabulary.

Arguments answered C function_name function_type y X theta d response job_id job_code
  : clear implicits.

(** ** Quota queries

    [_get_quota] of [helpers/_postmaster.py] and [get_api_quota] of
    [api_client.py].  The two collaborators they call, the lookup of the API
    keys in the environment and the quota request, are not among the sources;
    each invocation is recorded. *)

Module quota.

Inductive quota_event : Type :=
| EnvLookup
| QuotaRequest (quota_type api_key : pyval).

Record Services : Type := {
  QEnv : Type;
  (* _auth_manager._get_apikeys() *)
  get_apikeys_env : QEnv -> outcome pyval * QEnv;
  (* _payload_handler.get_quota(quota_type=..., api_key=...) *)
  get_quota_srv : pyval -> pyval -> QEnv -> outcome pyval * QEnv
}.

Record QWorld (S : Services) : Type := mkQWorld {
  qenv : QEnv S;
  qlog : list quota_event
}.
Arguments mkQWorld {S} qenv qlog.
Arguments qenv {S} q.
Arguments qlog {S} q.

Section WithServices.
Context {S : Services}.

Definition _get_apikeys (w : QWorld S) : outcome pyval * QWorld S :=
  let '(r, e) := get_apikeys_env S (qenv w) in
  (r, mkQWorld e (qlog w ++ [EnvLookup])).

Definition get_quota (quota_type api_key : pyval) (w : QWorld S)
  : outcome pyval * QWorld S :=
  let '(r, e) := get_quota_srv S quota_type api_key (qenv w) in
  (r, mkQWorld e (qlog w ++ [QuotaRequest quota_type api_key])).

(** [_get_quota(quota_type='summary', api_key=None)] *)
Definition _get_quota (quota_type api_key : pyval) (w : QWorld S)
  : outcome pyval * QWorld S :=
  if is_none api_key then
    match _get_apikeys w with
    | (Ok keys, w1) =>
        match unpack2 keys with
        | Ok (api_key, _) => get_quota quota_type api_key w1
        | Raise e => (Raise e, w1)
        end
    | (Raise e, w1) => (Raise e, w1)
    end
  else
    get_quota quota_type api_key w.

(** [get_api_quota(quota_type="summary", api_key=None)] *)
Definition get_api_quota (quota_type api_key : pyval) (w : QWorld S)
  : outcome pyval * QWorld S :=
  _get_quota quota_type api_key w.

End WithServices.

(** A key store and a quota service small enough to run by hand. *)
Definition toy : Services :=
  {| QEnv := nat;
     get_apikeys_env := fun n =>
       (Ok (PyTuple [PyStr "env-key"; PyStr "env-secret"]), n);
     get_quota_srv := fun quota_type api_key n =>
       (Ok (PyDict [("quota_type", quota_type); ("key", api_key)]), S n) |}.

Definition q0 : QWorld toy := @mkQWorld toy 0%nat [].

End quota.

(** ** Scripted collaborators

    A service that gives the same answer to every submission and the same
    answer to every poll, whatever they are. *)

Module scripted.

Definition service (post : outcome (pyval * pyval * pyval)) (poll : outcome pyval)
  : Collaborators :=
  {| Env := nat;
     post_job_srv := fun _ _ _ _ _ n => (post, S n);
     poll_for_results_srv := fun _ _ n => (poll, S n);
     convert_ndarray_to_list := fun options =>
       match options with
       | PyDict d => Ok d
       | _ => Raise (TypeError "options is not a mapping")
       end;
     format_value := fun v =>
       match v with
       | PyStr s => s
       | _ => "<object>"
       end;
     clock := fun n => (0%float, n) |}.

Definition w0 (post : outcome (pyval * pyval * pyval)) (poll : outcome pyval)
  : World (service post poll) :=
  @mkWorld (service post poll) 0%nat [].

(** Executors that answer without leaving the process. *)
Definition run_fixed {post poll} (answer : outcome (pyval * pyval))
    (f : api_client.executor) (function_type : PSRFunction)
    (y X theta Options : pyval) : M (service post poll) (pyval * pyval) :=
  lift answer.

Definition imports {post poll} (task : outcome JobType)
    (answer : outcome (pyval * pyval)) : api_client.Imports (C:=service post poll) :=
  {| api_client.determine_task_type := fun _ _ _ => task;
     api_client.run_executor := run_fixed answer |}.

End scripted.

(** ** More vocabulary *)

Section PublicVocabulary.
Context {C : Collaborators}.

(** The public prediction function of [api_client] for a function family:
    [predict_psr] for PSR, [predict_maxfit] for MAXFIT, [predict_grid] for
    GRID, [predict_grid_singularity] for GRID_SINGULARITY. *)
Definition public_function (I : api_client.Imports (C:=C)) (family : PSRFunction)
  : option (pyval → pyval → pyval → pyval → bool → M C api_client.prediction) :=
  match family with
  | PSR => Some (api_client.predict_psr I)
  | MAXFIT => Some (api_client.predict_maxfit I)
  | GRID => Some (api_client.predict_grid I)
  | GRID_SINGULARITY => Some (api_client.predict_grid_singularity I)
  | _ => None
  end.

(** The events a run adds to the trace. *)
Definition added (w w' : World C) : list event :=
  drop (length (trace w)) (trace w').

(** The options of a request can be read, serialized and handed over as
    keywords: the condition under which the wrapper reaches [post_job]. *)
Definition submittable (Options : pyval) (d : dict) : Prop :=
  ∃ o, py_getattr Options "options" = Ok o ∧
       convert_ndarray_to_list C o = Ok d ∧
       find (fun k => bool_decide (k ∈ ["y"; "X"; "theta"])) (dict_keys d) = None.

End PublicVocabulary.

Arguments submittable C Options d : clear implicits.

(** ** Calls that leave optional arguments out *)

Section OmittedArguments.
Context {C : Collaborators}.

(** The value of an optional flag: what the caller passed, or the default
    in the signature when the caller left it out. *)
Definition flag (in_signature : bool) (passed : option bool) : bool :=
  default in_signature passed.

(** [multi_tasks.predict_maxfit(y, X, theta, Options, poll_results=False)] *)
Definition call_multi_tasks_predict_maxfit (y X theta Options : pyval)
    (poll_results : option bool) : M C (pyval * pyval) :=
  multi_tasks.predict_maxfit y X theta Options (flag false poll_results).

(** [multi_tasks.predict_grid(y, X, theta, Options, poll_results=True)] *)
Definition call_multi_tasks_predict_grid (y X theta Options : pyval)
    (poll_results : option bool) : M C (pyval * pyval) :=
  multi_tasks.predict_grid y X theta Options (flag true poll_results).

(** [multi_tasks.predict_grid_singularity(y, X, theta, Options,
    poll_results=True)] *)
Definition call_multi_tasks_predict_grid_singularity (y X theta Options : pyval)
    (poll_results : option bool) : M C (pyval * pyval) :=
  multi_tasks.predict_grid_singularity y X theta Options (flag true poll_results).

(** [_workers.predict_maxfit(y, X, theta, Options, poll_results=False,
    is_binary=False)], [is_binary] left out. *)
Definition call_workers_predict_maxfit (y X theta Options : pyval)
    (poll_results : option bool) : M C (pyval * pyval) :=
  workers.predict_maxfit y X theta Options (flag false poll_results) (flag false None).

(** [_workers.predict_grid(y, X, theta, Options, poll_results=False,
    is_binary=False)], [is_binary] left out. *)
Definition call_workers_predict_grid (y X theta Options : pyval)
    (poll_results : option bool) : M C (pyval * pyval) :=
  workers.predict_grid y X theta Options (flag false poll_results) (flag false None).

(** [_workers.predict_grid_singularity(y, X, theta, Options,
    poll_results=False, is_binary=False)], [is_binary] left out. *)
Definition call_workers_predict_grid_singularity (y X theta Options : pyval)
    (poll_results : option bool) : M C (pyval * pyval) :=
  workers.predict_grid_singularity y X theta Options
    (flag false poll_results) (flag false None).

End OmittedArguments.

(** * Properties *)

(** ** The monad *)

Section MonadFacts.
Context {C : Collaborators}.

(** Unpacking a pair only to return it again changes nothing. *)
Lemma bind_ret_pair {A B} (m : M C (A * B)) w :
  bind m (fun p => let (a, b) := p in ret (a, b)) w = m w.
Proof.
  unfold bind, ret. destruct (m w) as [[[a b]|e] w']; reflexivity.
Qed.

End MonadFacts.

(** ** helpers/_postmaster.py *)

Section PostmasterFacts.
Context {C : Collaborators}.
Import postmaster.

(** One run of the wrapper, case by case. *)
Lemma wrapper_run base name func y X theta Options is_binary (w : World C) :
  _create_post_job_decorator base name func y X theta Options is_binary w =
  match py_getattr Options "options" with
  | Raise e => (Raise e, w)
  | Ok o =>
    match convert_ndarray_to_list C o with
    | Raise e => (Raise e, w)
    | Ok d =>
      match find (fun k => bool_decide (k ∈ ["y"; "X"; "theta"])) (dict_keys d) with
      | Some k =>
          (Raise (TypeError ("post_job() got multiple values for keyword argument '"
                               ++ k ++ "'")), w)
      | None =>
        let ft := function_type_of base is_binary in
        match post_job_srv C ft y X theta d (remote w) with
        | (Ok (response, job_id, job_code), e') =>
            (Ok (job_id, job_code),
             mkWorld e' (trace w ++ answered C name ft y X theta d response job_id job_code))
        | (Raise e, e') =>
            (Raise e, mkWorld e' (trace w ++ [NetPostJob ft y X theta d]))
        end
      end
    end
  end.
Proof.
  unfold _create_post_job_decorator, decorator, wrapper.
  unfold function_type_of, answered, bind, lift.
  destruct (py_getattr Options "options") as [o|e]; [|reflexivity].
  destruct (convert_ndarray_to_list C o) as [d|e]; [|reflexivity].
  unfold post_job.
  destruct (find _ (dict_keys d)) as [k|]; [reflexivity|].
  destruct (post_job_srv C _ y X theta d (remote w)) as [[[[response job_id] job_code]|e] e'];
    [|reflexivity].
  destruct (negb (is_none response) && is_none job_id && is_none job_code);
    unfold print, emit, ret; cbn; rewrite <- ?app_assoc; reflexivity.
Qed.

(** Whatever happens, a run of the wrapper extends the trace by at most one
    submission, tagged as the flag selects, possibly followed by one printed
    line. *)
Lemma wrapper_trace base name func y X theta Options is_binary (w : World C) :
  let r := _create_post_job_decorator base name func y X theta Options is_binary w in
  let ft := function_type_of base is_binary in
  ∃ l, trace (snd r) = (trace w ++ l)%list ∧
       (l = [] ∨ ∃ d, l = [NetPostJob ft y X theta d] ∨
                      ∃ response, l = [NetPostJob ft y X theta d;
                                       Stdout (diagnostic C name response)]).
Proof.
  cbn zeta. rewrite wrapper_run.
  destruct (py_getattr Options "options") as [o|e];
    [|exists []; rewrite app_nil_r; auto].
  destruct (convert_ndarray_to_list C o) as [d|e];
    [|exists []; rewrite app_nil_r; auto].
  destruct (find _ (dict_keys d)) as [k|];
    [exists []; rewrite app_nil_r; auto|].
  cbn zeta.
  destruct (post_job_srv C _ y X theta d (remote w)) as [[[[response job_id] job_code]|e] e'];
    cbn [snd trace].
  - eexists; split; [reflexivity|]. right. exists d. unfold answered.
    destruct (negb (is_none response) && is_none job_id && is_none job_code); eauto.
  - eexists; split; [reflexivity|]. right. exists d. auto.
Qed.

End PostmasterFacts.

Section ResultsFacts.
Context {C : Collaborators}.
Import postmaster.

(** One run of [_get_results], case by case: on a handle with both fields
    present it invokes [poll_for_results] once and reads [yhat] out of what
    comes back. *)
Lemma get_results_run (job_id job_code : pyval) (w : World C) :
  _get_results job_id job_code w =
  if negb (is_none job_id) && negb (is_none job_code) then
    match poll_for_results_srv C job_id job_code (remote w) with
    | (Ok output_details, e') =>
        (match py_get output_details "yhat" PyNone with
         | Ok yhat => Ok (yhat, output_details)
         | Raise e => Raise e
         end,
         mkWorld e' (trace w ++ [NetPoll job_id job_code]))
    | (Raise e, e') => (Raise e, mkWorld e' (trace w ++ [NetPoll job_id job_code]))
    end
  else (Ok (PyNone, PyNone), w).
Proof.
  unfold _get_results.
  destruct (negb (is_none job_id) && negb (is_none job_code)); [|reflexivity].
  unfold bind, poll_for_results, lift, ret.
  destruct (poll_for_results_srv C job_id job_code (remote w)) as [[det|e] e'];
    [|reflexivity].
  destruct (py_get det "yhat" PyNone); reflexivity.
Qed.

(** [_get_results] never submits a job, and what it adds to the trace is at
    most one poll. *)
Lemma get_results_trace (job_id job_code : pyval) (w : World C) :
  ∃ l, trace (snd (_get_results job_id job_code w)) = (trace w ++ l)%list ∧
       (l = [] ∨ l = [NetPoll job_id job_code]).
Proof.
  rewrite get_results_run.
  destruct (negb (is_none job_id) && negb (is_none job_code)).
  - destruct (poll_for_results_srv C job_id job_code (remote w)) as [[det|e] e'];
      eexists; (split; [reflexivity|auto]).
  - exists []. cbn. rewrite app_nil_r. auto.
Qed.

End ResultsFacts.

Section PostmasterClaims.
Context {C : Collaborators}.
Import postmaster.

Lemma is_none_false v : v ≠ PyNone → is_none v = false.
Proof. destruct v; cbn; congruence. Qed.

Lemma is_none_true v : is_none v = true → v = PyNone.
Proof. destruct v; cbn; congruence. Qed.

(** C1 (as amended): when [job_id] or [job_code] is [None], [_get_results]
    does not fail: it returns the pair [(None, None)] and leaves the world as
    it found it, so [poll_for_results] is not invoked and no network call is
    made. *)
Theorem get_results_absent_handle (job_id job_code : pyval) (w : World C) :
  job_id = PyNone ∨ job_code = PyNone →
  _get_results job_id job_code w = (Ok (PyNone, PyNone), w).
Proof.
  intros [-> | ->]; unfold _get_results; cbn [is_none negb andb].
  - reflexivity.
  - rewrite andb_false_r. reflexivity.
Qed.

(** The table behind the translation: four entries, nothing else. *)
Lemma binary_map_lookup (f : PSRFunction) :
  default f (_BINARY_FUNCTION_MAP !! f) = spec_binary_counterpart f.
Proof. destruct f; reflexivity. Qed.

Lemma binary_map_injective (a b c : PSRFunction) :
  _BINARY_FUNCTION_MAP !! a = Some c → _BINARY_FUNCTION_MAP !! b = Some c → a = b.
Proof. destruct a, b; vm_compute; congruence. Qed.

Lemma binary_map_image (c : PSRFunction) :
  (∃ a, _BINARY_FUNCTION_MAP !! a = Some c) ↔
  c ∈ [PSR_BINARY; MAXFIT_BINARY; GRID_BINARY; GRID_SINGULARITY_BINARY].
Proof.
  split.
  - intros [a Ha]. destruct a; vm_compute in Ha; try discriminate;
      injection Ha as <-; set_solver.
  - intros Hc. repeat (apply elem_of_cons in Hc as [-> | Hc]).
    + exists PSR; reflexivity.
    + exists MAXFIT; reflexivity.
    + exists GRID; reflexivity.
    + exists GRID_SINGULARITY; reflexivity.
    + apply elem_of_nil in Hc as [].
Qed.

(** C2: a call of the submission wrapper hands [post_job] the binary
    counterpart of its base family when [is_binary] is set (PSR to
    PSR_BINARY, MAXFIT to MAXFIT_BINARY, GRID to GRID_BINARY,
    GRID_SINGULARITY to GRID_SINGULARITY_BINARY, any other family unchanged)
    and the base family itself otherwise: the call adds at most one
    submission to the trace, it carries that tag, and it is made whenever
    the options can be read and serialized.  The table is injective and its
    image is the four binary tags. *)
Theorem binary_variant_selection (base : PSRFunction) (name : string)
    (func : decorated (C:=C))
    (y X theta Options : pyval) (is_binary : bool) (w : World C) :
  let expected := if is_binary then spec_binary_counterpart base else base in
  let r := _create_post_job_decorator base name func y X theta Options is_binary w in
  (∃ l, trace (snd r) = (trace w ++ l)%list ∧
        (posted_tags l = [] ∨ posted_tags l = [expected]) ∧
        (∀ o d,
           py_getattr Options "options" = Ok o →
           convert_ndarray_to_list C o = Ok d →
           find (fun k => bool_decide (k ∈ ["y"; "X"; "theta"])) (dict_keys d) = None →
           ∃ rest, l = NetPostJob expected y X theta d :: rest ∧ posted_tags rest = []))
  ∧ (∀ f, default f (_BINARY_FUNCTION_MAP !! f) = spec_binary_counterpart f)
  ∧ (∀ a b c, _BINARY_FUNCTION_MAP !! a = Some c →
              _BINARY_FUNCTION_MAP !! b = Some c → a = b)
  ∧ (∀ c, (∃ a, _BINARY_FUNCTION_MAP !! a = Some c) ↔
          c ∈ [PSR_BINARY; MAXFIT_BINARY; GRID_BINARY; GRID_SINGULARITY_BINARY]).
Proof.
  cbn zeta.
  assert (Hft : function_type_of base is_binary
                = if is_binary then spec_binary_counterpart base else base).
  { unfold function_type_of. destruct is_binary; [apply binary_map_lookup | reflexivity]. }
  split; [| split; [apply binary_map_lookup | split;
                    [apply binary_map_injective | apply binary_map_image]]].
  rewrite wrapper_run. cbn zeta. rewrite Hft.
  destruct (py_getattr Options "options") as [o|e].
  2: { exists []. cbn. rewrite app_nil_r. repeat split; [auto | discriminate]. }
  destruct (convert_ndarray_to_list C o) as [d|e] eqn:Hconv.
  2: { exists []. cbn. rewrite app_nil_r. repeat split; [auto | ].
       intros o' d' [= <-] H. rewrite Hconv in H. discriminate H. }
  destruct (find _ (dict_keys d)) as [k|] eqn:Hk.
  { exists []. cbn. rewrite app_nil_r. repeat split; [auto | ].
    intros o' d' [= <-] H. rewrite Hconv in H. injection H as <-.
    rewrite Hk. discriminate. }
  destruct (post_job_srv C _ y X theta d (remote w))
    as [[[[response job_id] job_code]|e] e']; cbn [snd trace].
  - eexists; split; [reflexivity|]. unfold answered.
    split.
    + right. destruct (negb (is_none response) && is_none job_id && is_none job_code);
        reflexivity.
    + intros o' d' [= <-] H _. rewrite Hconv in H. injection H as <-.
      eexists; split; [reflexivity|].
      destruct (negb (is_none response) && is_none job_id && is_none job_code);
        reflexivity.
  - eexists; split; [reflexivity|]. split; [right; reflexivity|].
    intros o' d' [= <-] H _. rewrite Hconv in H. injection H as <-.
    exists []. split; reflexivity.
Qed.

(** C5: when the server answers a submission with a response that is
    present while [job_id] and [job_code] are both absent, the wrapper returns
    the pair [(None, None)] without raising, after printing the diagnostic
    line; and a line is printed by the wrapper in that case only. *)
Theorem submission_without_handle (base : PSRFunction) (name : string)
    (func : decorated (C:=C))
    (y X theta Options : pyval) (is_binary : bool) (w : World C) :
  let ft := function_type_of base is_binary in
  let r := _create_post_job_decorator base name func y X theta Options is_binary w in
  (∀ o d response e',
     py_getattr Options "options" = Ok o →
     convert_ndarray_to_list C o = Ok d →
     find (fun k => bool_decide (k ∈ ["y"; "X"; "theta"])) (dict_keys d) = None →
     post_job_srv C ft y X theta d (remote w) = (Ok (response, PyNone, PyNone), e') →
     response ≠ PyNone →
     r = (Ok (PyNone, PyNone),
          mkWorld e' (trace w ++ [NetPostJob ft y X theta d;
                                  Stdout (diagnostic C name response)])))
  ∧
  (∀ line,
     Stdout line ∈ drop (length (trace w)) (trace (snd r)) →
     ∃ o d response e',
       py_getattr Options "options" = Ok o ∧
       convert_ndarray_to_list C o = Ok d ∧
       post_job_srv C ft y X theta d (remote w) = (Ok (response, PyNone, PyNone), e') ∧
       response ≠ PyNone ∧
       line = diagnostic C name response ∧
       fst r = Ok (PyNone, PyNone)).
Proof.
  cbn zeta. rewrite wrapper_run. split.
  - intros o d response e' -> -> -> Hsrv Hresp. cbn zeta. rewrite Hsrv.
    unfold answered. rewrite (is_none_false _ Hresp). reflexivity.
  - intros line.
    destruct (py_getattr Options "options") as [o|e] eqn:Hopt;
      [|cbn; rewrite drop_all; intros []%elem_of_nil].
    destruct (convert_ndarray_to_list C o) as [d|e] eqn:Hconv;
      [|cbn; rewrite drop_all; intros []%elem_of_nil].
    destruct (find _ (dict_keys d)) as [k|];
      [cbn; rewrite drop_all; intros []%elem_of_nil|].
    cbn zeta.
    destruct (post_job_srv C _ y X theta d (remote w))
      as [[[[response job_id] job_code]|e] e'] eqn:Hsrv; cbn [snd fst trace];
      rewrite drop_app_length.
    + unfold answered.
      destruct (negb (is_none response)) eqn:Hr; cbn [andb].
      2: { intros [H|[]%elem_of_nil]%elem_of_cons; discriminate H. }
      destruct (is_none job_id) eqn:Hi; cbn [andb].
      2: { intros [H|[]%elem_of_nil]%elem_of_cons; discriminate H. }
      destruct (is_none job_code) eqn:Hc.
      2: { intros [H|[]%elem_of_nil]%elem_of_cons; discriminate H. }
      apply is_none_true in Hi, Hc. subst job_id job_code.
      intros [H|[H|[]%elem_of_nil]%elem_of_cons]%elem_of_cons; [discriminate H|].
      injection H as ->.
      exists o, d, response, e'.
      split; [reflexivity|]. split; [exact Hconv|]. split; [exact Hsrv|].
      split; [intros ->; discriminate Hr|]. split; reflexivity.
    + intros [H|[]%elem_of_nil]%elem_of_cons; discriminate H.
Qed.

End PostmasterClaims.

Lemma get_results_absent_handle_witness :
  (PyNone = PyNone ∨ PyStr "c0de" = PyNone) ∧
  postmaster._get_results PyNone (PyStr "c0de") (demo.w0 true)
  = (Ok (PyNone, PyNone), demo.w0 true).
Proof.
  split; [left; reflexivity|].
  apply get_results_absent_handle. left; reflexivity.
Defined.

(** C1 as stated does not hold: on a handle with both fields absent
    [_get_results] returns normally, it does not raise [InvalidHandleError]
    (nor anything else). *)
Lemma get_results_absent_handle_returns :
  let r := postmaster._get_results PyNone PyNone (demo.w0 true) in
  r = (Ok (PyNone, PyNone), demo.w0 true) ∧ fst r ≠ Raise InvalidHandleError.
Proof. cbn. split; [reflexivity | discriminate]. Qed.


(** A binary submission on the accepting service: one job, tagged
    PSR_BINARY, and nothing printed. *)
Example post_predict_inputs_binary :
  postmaster._post_predict_inputs demo.y demo.X demo.theta demo.Options true
    (demo.w0 true)
  = (Ok (PyInt 0, PyStr "c0de"),
     @mkWorld (demo.service true) 1%nat
       [NetPostJob PSR_BINARY demo.y demo.X demo.theta [("threshold", PyNone)]]).
Proof. reflexivity. Qed.

Lemma binary_variant_selection_witness :
  ∃ l, trace (snd (postmaster._post_grid_singularity_inputs
                     demo.y demo.X demo.theta demo.Options true (demo.w0 true)))
       = (trace (demo.w0 true) ++ l)%list ∧
       posted_tags l = [GRID_SINGULARITY_BINARY].
Proof.
  destruct (proj1 (binary_variant_selection (C:=demo.service true)
                     GRID_SINGULARITY "_post_grid_singularity_inputs"
                     postmaster.pass_body
                     demo.y demo.X demo.theta demo.Options true (demo.w0 true)))
    as (l & Hl & _ & Hposted).
  destruct (Hposted (PyDict [("threshold", PyNone)]) [("threshold", PyNone)]
              eq_refl eq_refl eq_refl) as (rest & -> & Hrest).
  eexists. split; [exact Hl|]. unfold posted_tags in *. cbn [omap list_omap].
  rewrite Hrest. reflexivity.
Defined.

Lemma submission_without_handle_witness :
  postmaster._post_predict_inputs demo.y demo.X demo.theta demo.Options false
    (demo.w0 false)
  = (Ok (PyNone, PyNone),
     @mkWorld (demo.service false) 1%nat
       [NetPostJob PSR demo.y demo.X demo.theta [("threshold", PyNone)];
        Stdout "csanalytics:postmaster:_jobs:_post_predict_inputs:quota exceeded"]).
Proof.
  apply (proj1 (submission_without_handle (C:=demo.service false)
                  PSR "_post_predict_inputs" postmaster.pass_body
                  demo.y demo.X demo.theta demo.Options false (demo.w0 false))
           (PyDict [("threshold", PyNone)]) [("threshold", PyNone)]
           (PyStr "quota exceeded") 1%nat);
    [reflexivity | reflexivity | reflexivity | reflexivity | discriminate].
Defined.

(** ** bin/_workers.py and bin/multi_tasks.py *)

Section ExecutorClaims.
Context {C : Collaborators}.
Import postmaster.

(** Membership in an explicit list, one element at a time. *)
Ltac elem_cases H :=
  cbn in H;
  repeat (apply elem_of_cons in H as [-> | H]);
  try reflexivity;
  apply elem_of_nil in H as [].

Lemma posted_tags_app (l k : list event) :
  posted_tags (l ++ k) = (posted_tags l ++ posted_tags k)%list.
Proof. apply omap_app. Qed.

Lemma filter_poll_app (l k : list event) :
  filter is_poll (l ++ k)%list = (filter is_poll l ++ filter is_poll k)%list.
Proof. apply filter_app. Qed.

(** C3 (as amended): with [poll_results] false, [_execute_prediction]
    returns the pair [(job_id, job_code)] produced by the submission and
    stops in the world the submission left, so nothing is polled (with a
    decorated submitter no poll appears in the trace).  With [poll_results]
    true it submits first; then, if [job_id] and [job_code] are both present,
    it invokes [poll_for_results] once with that pair, in the world the
    submission left, and returns the entry under ["yhat"] of the answer
    together with the answer; if one of them is absent it does not poll and
    returns [(None, None)].  An exception raised by the submission or by the
    poll propagates. *)
Theorem execute_prediction_submit_then_poll (y X theta Options : pyval)
    (post_function : submitter (C:=C)) (is_binary : bool) (w : World C) :
  workers._execute_prediction y X theta Options post_function false is_binary w
  = post_function y X theta Options is_binary w
  ∧
  workers._execute_prediction y X theta Options post_function true is_binary w
  = match post_function y X theta Options is_binary w with
    | (Raise e, w1) => (Raise e, w1)
    | (Ok (job_id, job_code), w1) =>
        if negb (is_none job_id) && negb (is_none job_code) then
          match poll_for_results_srv C job_id job_code (remote w1) with
          | (Ok answer, e2) =>
              (match py_get answer "yhat" PyNone with
               | Ok yhat => Ok (yhat, answer)
               | Raise e => Raise e
               end,
               mkWorld e2 (trace w1 ++ [NetPoll job_id job_code]))
          | (Raise e, e2) =>
              (Raise e, mkWorld e2 (trace w1 ++ [NetPoll job_id job_code]))
          end
        else (Ok (PyNone, PyNone), w1)
    end
  ∧
  (∀ base name func,
     let r := workers._execute_prediction y X theta Options
                (_create_post_job_decorator base name func) false is_binary w in
     filter is_poll (trace (snd r)) = filter is_poll (trace w))
  ∧
  (∀ base name func,
     let r := workers._execute_prediction y X theta Options
                (_create_post_job_decorator base name func) true is_binary w in
     ∃ submitted polled,
       trace (snd r) = (trace w ++ submitted ++ polled)%list ∧
       filter is_poll submitted = [] ∧ posted_tags polled = []).
Proof.
  split; [|split; [|split]].
  - unfold workers._execute_prediction. apply bind_ret_pair.
  - unfold workers._execute_prediction, bind, _get_results_worker.
    destruct (post_function y X theta Options is_binary w) as [[[job_id job_code]|e] w1];
      [|reflexivity].
    pose proof (bind_ret_pair (_get_results job_id job_code) w1) as Hb.
    unfold bind in Hb. rewrite Hb. apply get_results_run.
  - intros base name func. cbn zeta.
    unfold workers._execute_prediction. rewrite bind_ret_pair.
    destruct (wrapper_trace base name func y X theta Options is_binary w)
      as (l & -> & [-> | (d & [-> | (response & ->)])]);
      rewrite filter_poll_app; cbn; rewrite app_nil_r; reflexivity.
  - intros base name func. cbn zeta.
    unfold workers._execute_prediction, bind, _get_results_worker.
    pose proof (wrapper_trace base name func y X theta Options is_binary w)
      as (l & Hl & Hshape).
    cbn zeta in Hl, Hshape.
    assert (Hnopoll : filter is_poll l = []).
    { destruct Hshape as [-> | (d & [-> | (response & ->)])]; reflexivity. }
    destruct (_create_post_job_decorator base name func y X theta Options is_binary w)
      as [[[job_id job_code]|e] w1]; cbn [snd] in Hl.
    + pose proof (bind_ret_pair (_get_results job_id job_code) w1) as Hb.
      unfold bind in Hb. rewrite Hb.
      destruct (get_results_trace job_id job_code w1) as (l' & -> & Hl').
      exists l, l'. rewrite Hl, app_assoc. split; [reflexivity|].
      split; [exact Hnopoll|]. destruct Hl' as [-> | ->]; reflexivity.
    + exists l, []. cbn [snd]. rewrite app_nil_r.
      split; [exact Hl|]. split; [exact Hnopoll|reflexivity].
Qed.

(** C7: the batch functions [predict_grid] and [predict_grid_singularity] of
    [multi_tasks] return the same value and leave the same world on every
    input; both submit through [_post_grid_inputs], so every job either of
    them posts is tagged GRID. *)
Theorem multi_tasks_grid_singularity_same (y X theta Options : pyval)
    (poll_results : bool) (w : World C) :
  multi_tasks.predict_grid y X theta Options poll_results w
  = multi_tasks.predict_grid_singularity y X theta Options poll_results w
  ∧
  ∃ l, trace (snd (multi_tasks.predict_grid_singularity
                     y X theta Options poll_results w))
       = (trace w ++ l)%list ∧
       ∀ ft, ft ∈ posted_tags l → ft = GRID.
Proof.
  split; [reflexivity|].
  unfold multi_tasks.predict_grid_singularity, _post_grid_inputs, bind.
  pose proof (wrapper_trace GRID "_post_grid_inputs" pass_body
                y X theta Options false w) as (l & Hl & Hshape).
  cbn zeta in Hl, Hshape.
  destruct (_create_post_job_decorator GRID "_post_grid_inputs" pass_body
              y X theta Options false w) as [[[job_id job_code]|e] w1];
    cbn [snd] in Hl.
  - assert (Hposted : ∀ ft, ft ∈ posted_tags l → ft = GRID).
    { intros ft Hft.
      destruct Hshape as [-> | (d & [-> | (response & ->)])]; elem_cases Hft. }
    destruct poll_results.
    + pose proof (bind_ret_pair (_get_results job_id job_code) w1) as Hb.
      unfold bind in Hb. rewrite Hb.
      destruct (get_results_trace job_id job_code w1) as (l' & -> & Hl').
      exists (l ++ l')%list. rewrite Hl, app_assoc. split; [reflexivity|].
      intros ft. rewrite posted_tags_app.
      destruct Hl' as [-> | ->]; cbn; rewrite app_nil_r; apply Hposted.
    + exists l. split; [exact Hl|exact Hposted].
  - exists l. cbn [snd]. split; [exact Hl|].
    intros ft Hft.
    destruct Hshape as [-> | (d & [-> | (response & ->)])]; elem_cases Hft.
Qed.

End ExecutorClaims.

Lemma execute_prediction_submit_then_poll_witness :
  workers._execute_prediction demo.y demo.X demo.theta demo.Options
    postmaster._post_predict_inputs true false (demo.w0 true)
  = (Ok (PyList [PyFloat 1],
         PyDict [("yhat", PyList [PyFloat 1]); ("fit", PyFloat 0)]),
     @mkWorld (demo.service true) 2%nat
       [NetPostJob PSR demo.y demo.X demo.theta [("threshold", PyNone)];
        NetPoll (PyInt 0) (PyStr "c0de")]).
Proof.
  etransitivity.
  - apply (proj1 (proj2 (execute_prediction_submit_then_poll
                           (C:=demo.service true)
                           demo.y demo.X demo.theta demo.Options
                           postmaster._post_predict_inputs false (demo.w0 true)))).
  - reflexivity.
Defined.

(** C3 as stated does not hold: with [poll_results] true and a submission
    that came back without a handle, nothing is polled and the pair returned
    is not one obtained from polling, although the service would have
    answered a poll. *)
Lemma waiting_on_absent_handle_does_not_poll :
  let r := workers._execute_prediction demo.y demo.X demo.theta demo.Options
             postmaster._post_predict_inputs true false (demo.w0 false) in
  fst r = Ok (PyNone, PyNone) ∧
  filter is_poll (trace (snd r)) = [] ∧
  trace (snd r)
  = [NetPostJob PSR demo.y demo.X demo.theta [("threshold", PyNone)];
     Stdout "csanalytics:postmaster:_jobs:_post_predict_inputs:quota exceeded"] ∧
  fst (poll_for_results_srv (demo.service false) PyNone PyNone 1%nat)
  = Ok (PyDict [("yhat", PyList [PyFloat 1]); ("fit", PyFloat 0)]).
Proof. cbn. repeat split; reflexivity. Qed.

(** Submitting and waiting on the accepting service: one job, then one
    poll. *)
Example predict_psr_waits :
  workers.predict_psr demo.y demo.X demo.theta demo.Options true false (demo.w0 true)
  = (Ok (PyList [PyFloat 1],
         PyDict [("yhat", PyList [PyFloat 1]); ("fit", PyFloat 0)]),
     @mkWorld (demo.service true) 2%nat
       [NetPostJob PSR demo.y demo.X demo.theta [("threshold", PyNone)];
        NetPoll (PyInt 0) (PyStr "c0de")]).
Proof. reflexivity. Qed.

(** Fire and forget on the same service: the handle, and no poll. *)
Example predict_psr_deferred :
  workers.predict_psr demo.y demo.X demo.theta demo.Options false false (demo.w0 true)
  = (Ok (PyInt 0, PyStr "c0de"),
     @mkWorld (demo.service true) 1%nat
       [NetPostJob PSR demo.y demo.X demo.theta [("threshold", PyNone)]]).
Proof. reflexivity. Qed.

(** A rejected submission that is waited on: nothing to poll, [(None, None)]. *)
Example predict_psr_rejected_then_waits :
  workers.predict_psr demo.y demo.X demo.theta demo.Options true false (demo.w0 false)
  = (Ok (PyNone, PyNone),
     @mkWorld (demo.service false) 1%nat
       [NetPostJob PSR demo.y demo.X demo.theta [("threshold", PyNone)];
        Stdout "csanalytics:postmaster:_jobs:_post_predict_inputs:quota exceeded"]).
Proof. reflexivity. Qed.

(** ** api_client.py *)

Section ApiClientFacts.
Context {C : Collaborators}.
Import api_client.

(** The task table, entry by entry. *)
Lemma task_map_lookup (k : JobType) :
  _TASK_MAP !! k =
  match k with
  | SINGLE => Some single_tasks_predict
  | MULTI_THETA => Some run_multi_theta
  | MULTI_Y => Some run_multi_y
  | JOBTYPE_OTHER _ => None
  end.
Proof.
  destruct k; reflexivity.
Qed.

(** One run of [predict_psr], case by case. *)
Lemma predict_psr_run (I : Imports) (y X theta Options : pyval)
    (is_return_receipt : bool) (w : World C) :
  predict_psr I y X theta Options is_return_receipt w =
  let start_time := fst (clock C (remote w)) in
  match determine_task_type I y X theta with
  | Raise e => (Raise e, after_clock w)
  | Ok task_type =>
    match _TASK_MAP !! task_type with
    | None => (Raise (TypeError "'NoneType' object is not callable"), after_clock w)
    | Some f =>
      match run_executor I f PSR y X theta Options (after_clock w) with
      | (Raise e, w1) => (Raise e, w1)
      | (Ok (yhat, yhat_details), w1) =>
          let end_time := fst (clock C (remote w1)) in
          (Ok (if is_return_receipt
               then Triple yhat yhat_details
                      (mkReceipt PSR y X theta Options yhat (end_time - start_time)%float)
               else Pair yhat yhat_details),
           after_clock w1)
      end
    end
  end.
Proof.
  unfold predict_psr, bind, time_time, lift, after_clock.
  destruct (clock C (remote w)) as [start_time e0]. cbn [fst snd].
  destruct (determine_task_type I y X theta) as [task_type|e]; [|reflexivity].
  unfold call_prediction_function.
  destruct (_TASK_MAP !! task_type) as [f|]; [|reflexivity].
  destruct (run_executor I f PSR y X theta Options (mkWorld e0 (trace w)))
    as [[[yhat yhat_details]|e] w1]; [|reflexivity].
  destruct (clock C (remote w1)) as [end_time e1]. cbn [fst snd].
  destruct is_return_receipt; reflexivity.
Qed.

End ApiClientFacts.

Section ApiClientClaims.
Context {C : Collaborators}.
Import api_client.

(** C4 (as amended): the task table maps exactly the three task kinds
    SINGLE, MULTI_Y and MULTI_THETA, to [single_tasks.predict], [run_multi_y]
    and [run_multi_theta]; a task kind outside those three is looked up to
    [None], and the dispatch then fails with the built-in [TypeError] raised
    by calling [None], before any executor or network call is made. *)
Theorem task_table_dispatch (I : Imports) (y X theta Options : pyval)
    (is_return_receipt : bool) (w : World C) :
  (_TASK_MAP !! SINGLE = Some single_tasks_predict ∧
   _TASK_MAP !! MULTI_Y = Some run_multi_y ∧
   _TASK_MAP !! MULTI_THETA = Some run_multi_theta ∧
   ∀ k, is_Some (_TASK_MAP !! k) ↔ k = SINGLE ∨ k = MULTI_Y ∨ k = MULTI_THETA)
  ∧
  (∀ k, determine_task_type I y X theta = Ok k →
        k ≠ SINGLE → k ≠ MULTI_Y → k ≠ MULTI_THETA →
        _TASK_MAP !! k = None ∧
        predict_psr I y X theta Options is_return_receipt w
        = (Raise (TypeError "'NoneType' object is not callable"), after_clock w)).
Proof.
  split.
  - repeat split; try reflexivity.
    + rewrite task_map_lookup. intros [f Hf].
      destruct k; try discriminate; auto.
    + intros [-> | [-> | ->]]; rewrite task_map_lookup; eauto.
  - intros k Hk H1 H2 H3.
    assert (Hmiss : _TASK_MAP !! k = None).
    { rewrite task_map_lookup. destruct k; congruence. }
    split; [exact Hmiss|].
    rewrite predict_psr_run. cbn zeta. rewrite Hk, Hmiss. reflexivity.
Qed.

(** C8: from the same world, [predict_psr] with and without the receipt
    option finishes the same way: either both raise the same exception, or
    both return the same [yhat] and [yhat_details] and leave the same world;
    the result carries a receipt exactly when [is_return_receipt] is true. *)
Theorem receipt_does_not_change_result (I : Imports) (y X theta Options : pyval)
    (w : World C) :
  match predict_psr I y X theta Options false w,
        predict_psr I y X theta Options true w with
  | (Ok p, w1), (Ok q, w2) =>
      primary p = primary q ∧ w1 = w2 ∧
      receipt_of p = None ∧
      ∃ duration,
        receipt_of q = Some (mkReceipt PSR y X theta Options (fst (primary q)) duration)
  | (Raise e1, w1), (Raise e2, w2) => e1 = e2 ∧ w1 = w2
  | _, _ => False
  end.
Proof.
  rewrite !predict_psr_run. cbn zeta.
  destruct (determine_task_type I y X theta) as [task_type|e]; [|auto].
  destruct (_TASK_MAP !! task_type) as [f|]; [|auto].
  destruct (run_executor I f PSR y X theta Options (after_clock w))
    as [[[yhat yhat_details]|e] w1]; [|auto].
  cbn. eauto 6.
Qed.


End ApiClientClaims.

Lemma task_table_dispatch_witness :
  api_client.predict_psr (demo.lost_imports true)
    demo.y demo.X demo.theta demo.Options false (demo.w0 true)
  = (Raise (TypeError "'NoneType' object is not callable"), demo.w0 true).
Proof.
  apply (proj2 (task_table_dispatch (demo.lost_imports true)
                  demo.y demo.X demo.theta demo.Options false (demo.w0 true))
           (JOBTYPE_OTHER "None") eq_refl);
    discriminate.
Defined.

(** C4 as stated does not hold: when the router hands back a value the
    table does not list, the dispatch fails, but with [TypeError]; no
    [UnroutableTaskError] is raised. *)
Lemma unrouted_task_is_a_type_error :
  let I := demo.lost_imports true in
  let r := api_client.predict_psr I demo.y demo.X demo.theta demo.Options false
             (demo.w0 true) in
  api_client.determine_task_type I demo.y demo.X demo.theta = Ok (JOBTYPE_OTHER "None") ∧
  api_client._TASK_MAP !! JOBTYPE_OTHER "None" = None ∧
  fst r = Raise (TypeError "'NoneType' object is not callable") ∧
  fst r ≠ Raise UnroutableTaskError.
Proof. cbn. repeat split; try reflexivity. discriminate. Qed.

(** With a receipt, on the accepting service. *)
Example predict_psr_with_receipt :
  api_client.predict_psr (api_client.with_router (demo.run (accepting:=true)))
    demo.y demo.X demo.theta demo.Options true (demo.w0 true)
  = (Ok (api_client.Triple (PyList [PyFloat 1])
           (PyDict [("yhat", PyList [PyFloat 1]); ("fit", PyFloat 0)])
           (api_client.mkReceipt PSR demo.y demo.X demo.theta demo.Options
              (PyList [PyFloat 1]) 0%float)),
     @mkWorld (demo.service true) 2%nat
       [NetPostJob PSR demo.y demo.X demo.theta [("threshold", PyNone)];
        NetPoll (PyInt 0) (PyStr "c0de")]).
Proof. reflexivity. Qed.



(** The three end-to-end scenarios of the design document. *)
Example classify_single : router.classify (100, 1) (100, 5) (1, 5) = Ok SINGLE.
Proof. reflexivity. Qed.

Example classify_multi_y : router.classify (100, 3) (100, 5) (1, 5) = Ok MULTI_Y.
Proof. reflexivity. Qed.

Example classify_multi_theta : router.classify (100, 1) (100, 5) (4, 5) = Ok MULTI_THETA.
Proof. reflexivity. Qed.

(** ** psrlib.py *)

Section PsrlibClaims.
Context {C : Collaborators}.

(** C9: with [csa_postmaster] bound to the postmaster module,
    [psrlib.predict_grid] fails on every input at the lookup of
    [_post_ckt_inputs], a name the module does not bind: [AttributeError] is
    raised and the world is left as it was, so no job is submitted. *)
Theorem psrlib_predict_grid_fails
    (y X theta threshold_range stepsize most_eval eval_type k return_grid : pyval)
    (poll_results : bool) (w : World C) :
  postmaster.namespace (C:=C) !! "_post_ckt_inputs" = None ∧
  psrlib.predict_grid postmaster.namespace
    y X theta threshold_range stepsize most_eval eval_type k return_grid
    poll_results w
  = (Raise (AttributeError "module has no attribute '_post_ckt_inputs'"), w).
Proof.
  assert (Hmiss : postmaster.namespace (C:=C) !! "_post_ckt_inputs" = None)
    by reflexivity.
  split; [exact Hmiss|].
  unfold psrlib.predict_grid, module_getattr, bind. rewrite Hmiss. reflexivity.
Qed.

(** C10: [psrlib.predict_maxfit] does not depend on [threshold_range] and
    [stepsize]: two calls that agree on every other argument and start from
    the same world return the same value and leave the same world, whatever
    module [csa_postmaster] is bound to; the keywords handed to the submitter
    are [y], [X], [theta], [most_eval], [eval_type] and [cov_inv] only. *)
Theorem psrlib_predict_maxfit_ignores_range_and_stepsize
    (csa_postmaster : gmap string (member C))
    (y X theta threshold_range stepsize threshold_range' stepsize'
       most_eval eval_type cov_inv : pyval)
    (poll_results : bool) (w : World C) :
  psrlib.predict_maxfit csa_postmaster
    y X theta threshold_range stepsize most_eval eval_type cov_inv poll_results w
  = psrlib.predict_maxfit csa_postmaster
      y X theta threshold_range' stepsize' most_eval eval_type cov_inv poll_results w
  ∧
  (∀ call,
     csa_postmaster !! "_post_maxfit_inputs" = Some (Function call) →
     psrlib.predict_maxfit csa_postmaster
       y X theta threshold_range stepsize most_eval eval_type cov_inv false w
     = bind (call [] (maxfit_keywords y X theta most_eval eval_type cov_inv))
         (fun r => lift (unpack2 r)) w).
Proof.
  split; [reflexivity|].
  intros call Hcall.
  unfold psrlib.predict_maxfit, module_getattr. rewrite Hcall.
  unfold bind, ret, py_call, maxfit_keywords.
  destruct (call [] _ w) as [[r|e] w1]; [|reflexivity].
  unfold lift. destruct (unpack2 r) as [[job_id job_code]|e]; reflexivity.
Qed.

(** Against the postmaster module of this package the keywords do not even
    bind: its submitter takes [(y, X, theta, Options, is_binary)], so the call
    is rejected before anything is submitted. *)
Lemma psrlib_predict_maxfit_rejected
    (y X theta threshold_range stepsize most_eval eval_type cov_inv : pyval)
    (poll_results : bool) (w : World C) :
  psrlib.predict_maxfit postmaster.namespace
    y X theta threshold_range stepsize most_eval eval_type cov_inv poll_results w
  = (Raise (TypeError
       "_post_maxfit_inputs() got an unexpected keyword argument 'most_eval'"), w).
Proof. reflexivity. Qed.

(** The module's own [_get_results], called with two positional
    arguments as [psrlib] does, on an absent handle. *)
Example namespace_get_results_absent (w : World C) :
  (let* get <- module_getattr postmaster.namespace "_get_results" in
   py_call get [PyNone; PyNone] []) w
  = (Ok (PyTuple [PyNone; PyNone]), w).
Proof. reflexivity. Qed.

End PsrlibClaims.

Lemma psrlib_predict_maxfit_witness :
  psrlib.predict_maxfit (demo.echo_postmaster true)
    demo.y demo.X demo.theta (PyTuple [PyInt 0; PyInt 1]) (PyFloat 0.5)
    (PyBool true) (PyStr "relevance") PyNone false (demo.w0 true)
  = bind (demo.echo []
            (maxfit_keywords demo.y demo.X demo.theta
               (PyBool true) (PyStr "relevance") PyNone))
      (fun r => lift (unpack2 r)) (demo.w0 true).
Proof.
  apply (proj2 (psrlib_predict_maxfit_ignores_range_and_stepsize
                  (C:=demo.service true) (demo.echo_postmaster true)
                  demo.y demo.X demo.theta (PyTuple [PyInt 0; PyInt 1]) (PyFloat 0.5)
                  PyNone PyNone (PyBool true) (PyStr "relevance") PyNone
                  false (demo.w0 true)) demo.echo).
  reflexivity.
Defined.

(** What the echoing submitter saw: neither the range nor the step size. *)
Example psrlib_predict_maxfit_payload :
  psrlib.predict_maxfit (demo.echo_postmaster true)
    demo.y demo.X demo.theta (PyTuple [PyInt 0; PyInt 1]) (PyFloat 0.5)
    (PyBool true) (PyStr "relevance") PyNone false (demo.w0 true)
  = (Ok (PyInt 7,
         PyDict [("y", demo.y); ("X", demo.X); ("theta", demo.theta);
                 ("most_eval", PyBool true); ("eval_type", PyStr "relevance");
                 ("cov_inv", PyNone)]),
     demo.w0 true).
Proof. reflexivity. Qed.

(** * Further properties *)

(** ** helpers/_postmaster.py *)

Section PostmasterMore.
Context {C : Collaborators}.
Import postmaster.

Lemma dict_get_missing (d : dict) (k : string) (default : pyval) :
  k ∉ dict_keys d → dict_get d k default = default.
Proof.
  induction d as [|[k' v] d IH]; intros Hk; [reflexivity|].
  cbn in *. apply not_elem_of_cons in Hk as [Hne Hk].
  destruct (String.eqb_spec k' k) as [->|_]; [congruence|]. apply IH, Hk.
Qed.

(** The run of the wrapper on a request whose options reach [post_job]. *)
Lemma wrapper_run_submittable base name func y X theta Options is_binary d
    (w : World C) :
  submittable C Options d →
  _create_post_job_decorator base name func y X theta Options is_binary w =
  let ft := function_type_of base is_binary in
  match post_job_srv C ft y X theta d (remote w) with
  | (Ok (response, job_id, job_code), e') =>
      (Ok (job_id, job_code),
       mkWorld e' (trace w ++ answered C name ft y X theta d response job_id job_code))
  | (Raise e, e') =>
      (Raise e, mkWorld e' (trace w ++ [NetPostJob ft y X theta d]))
  end.
Proof.
  intros (o & Ho & Hd & Hk). rewrite wrapper_run, Ho, Hd, Hk. reflexivity.
Qed.

(** X1: on a handle with both fields present, [_get_results] invokes
    [poll_for_results] exactly once, with that handle; when the answer is a
    dictionary it returns the entry under ["yhat"] together with the whole
    dictionary, and [None] in place of the entry when the dictionary has no
    such key. *)
Theorem get_results_polls_once (job_id job_code : pyval) (d : dict)
    (e' : Env C) (w : World C) :
  job_id ≠ PyNone → job_code ≠ PyNone →
  poll_for_results_srv C job_id job_code (remote w) = (Ok (PyDict d), e') →
  _get_results job_id job_code w
  = (Ok (dict_get d "yhat" PyNone, PyDict d),
     mkWorld e' (trace w ++ [NetPoll job_id job_code]))
  ∧ ("yhat" ∉ dict_keys d →
     fst (_get_results job_id job_code w) = Ok (PyNone, PyDict d)).
Proof.
  intros Hi Hc Hpoll.
  assert (Hrun : _get_results job_id job_code w
                 = (Ok (dict_get d "yhat" PyNone, PyDict d),
                    mkWorld e' (trace w ++ [NetPoll job_id job_code]))).
  { rewrite get_results_run, (is_none_false _ Hi), (is_none_false _ Hc).
    cbn [negb andb]. rewrite Hpoll. reflexivity. }
  split; [exact Hrun|].
  intros Hmiss. rewrite Hrun. cbn [fst].
  rewrite (dict_get_missing _ _ _ Hmiss). reflexivity.
Qed.

(** X2: [_get_results] catches nothing: on a handle with both fields
    present, an exception raised by [poll_for_results] comes out unchanged,
    and an answer that is [None] instead of a dictionary ends in
    [AttributeError]; in both cases the poll has been made. *)
Theorem get_results_poll_failures (job_id job_code : pyval) (w : World C) :
  job_id ≠ PyNone → job_code ≠ PyNone →
  (∀ e e', poll_for_results_srv C job_id job_code (remote w) = (Raise e, e') →
           _get_results job_id job_code w
           = (Raise e, mkWorld e' (trace w ++ [NetPoll job_id job_code])))
  ∧
  (∀ e', poll_for_results_srv C job_id job_code (remote w) = (Ok PyNone, e') →
         ∃ msg, _get_results job_id job_code w
                = (Raise (AttributeError msg),
                   mkWorld e' (trace w ++ [NetPoll job_id job_code]))).
Proof.
  intros Hi Hc.
  split; intros; rewrite get_results_run, (is_none_false _ Hi), (is_none_false _ Hc);
    cbn [negb andb]; rewrite H; [|eexists]; reflexivity.
Qed.

(** X3: the wrapper gives up before any network call, leaving the world as
    it found it, when [Options] has no attribute [options], when the options
    cannot be serialized, and when the serialized options contain one of the
    keys [y], [X], [theta] that the call already passes by keyword. *)
Theorem wrapper_rejects_before_network (base : PSRFunction) (name : string)
    (func : decorated (C:=C)) (y X theta Options : pyval) (is_binary : bool)
    (w : World C) :
  let r := _create_post_job_decorator base name func y X theta Options is_binary w in
  (∀ e, py_getattr Options "options" = Raise e → r = (Raise e, w))
  ∧
  (∀ o e, py_getattr Options "options" = Ok o →
          convert_ndarray_to_list C o = Raise e → r = (Raise e, w))
  ∧
  (∀ o d k, py_getattr Options "options" = Ok o →
            convert_ndarray_to_list C o = Ok d →
            k ∈ dict_keys d → k ∈ ["y"; "X"; "theta"] →
            ∃ msg, r = (Raise (TypeError msg), w)).
Proof.
  cbn zeta. rewrite wrapper_run. split; [|split].
  - intros e ->. reflexivity.
  - intros o e -> ->. reflexivity.
  - intros o d k -> -> Hk Hres.
    destruct (find _ (dict_keys d)) as [k'|] eqn:Hfind; [eauto|].
    exfalso.
    pose proof (find_none _ _ Hfind k (proj1 (list_elem_of_In _ _) Hk)) as Hno.
    cbv beta in Hno. rewrite (bool_decide_eq_true_2 _ Hres) in Hno.
    discriminate Hno.
Qed.

(** X4: the wrapper does not catch what [post_job] raises: the exception
    comes out unchanged, the submission is on the trace and nothing is
    printed. *)
Theorem wrapper_propagates_post_job_error (base : PSRFunction) (name : string)
    (func : decorated (C:=C)) (y X theta Options : pyval) (is_binary : bool)
    (d : dict) (e : exn) (e' : Env C) (w : World C) :
  submittable C Options d →
  post_job_srv C (function_type_of base is_binary) y X theta d (remote w)
  = (Raise e, e') →
  _create_post_job_decorator base name func y X theta Options is_binary w
  = (Raise e,
     mkWorld e' (trace w ++ [NetPostJob (function_type_of base is_binary) y X theta d])).
Proof.
  intros Hsub Hsrv. rewrite (wrapper_run_submittable _ _ _ _ _ _ _ _ _ _ Hsub).
  cbn zeta. rewrite Hsrv. reflexivity.
Qed.

End PostmasterMore.

(** ** bin/_workers.py and bin/multi_tasks.py *)

(** An explicit list, member by member. *)
Ltac in_explicit_list H :=
  cbn in H;
  repeat (apply elem_of_cons in H as [-> | H]);
  try reflexivity;
  apply elem_of_nil in H as [].

Section ExecutorMore.
Context {C : Collaborators}.
Import postmaster.

Lemma added_app (w w' : World C) (l : list event) :
  trace w' = (trace w ++ l)%list → added w w' = l.
Proof. intros H. unfold added. rewrite H. apply drop_app_length. Qed.

(** What [_execute_prediction] adds to the trace with a decorated submitter:
    every submission carries the tag the flag selects, and when the options
    reach [post_job] there is exactly one. *)
Lemma execute_prediction_trace base name func y X theta Options poll_results
    is_binary (w : World C) :
  let r := workers._execute_prediction y X theta Options
             (_create_post_job_decorator base name func) poll_results is_binary w in
  ∃ l, trace (snd r) = (trace w ++ l)%list ∧
       (∀ t, t ∈ posted_tags l → t = function_type_of base is_binary) ∧
       (∀ d, submittable C Options d →
             posted_tags l = [function_type_of base is_binary]).
Proof.
  cbn zeta. unfold workers._execute_prediction, bind, _get_results_worker.
  pose proof (wrapper_trace base name func y X theta Options is_binary w)
    as (l & Hl & Hshape).
  cbn zeta in Hl, Hshape.
  assert (Hsub : ∀ d, submittable C Options d →
                      posted_tags l = [function_type_of base is_binary]).
  { intros d Hd. pose proof (wrapper_run_submittable base name func y X theta
                               Options is_binary d w Hd) as Hrun.
    cbn zeta in Hrun. rewrite Hrun in Hl.
    destruct (post_job_srv C _ y X theta d (remote w))
      as [[[[response job_id] job_code]|e] e']; cbn [snd trace] in Hl;
      apply app_inv_head in Hl; subst l; unfold answered;
      [destruct (negb (is_none response) && is_none job_id && is_none job_code)|];
      reflexivity. }
  assert (Htags : ∀ t, t ∈ posted_tags l → t = function_type_of base is_binary).
  { intros t Ht.
    destruct Hshape as [-> | (d & [-> | (response & ->)])]; in_explicit_list Ht. }
  destruct (_create_post_job_decorator base name func y X theta Options is_binary w)
    as [[[job_id job_code]|e] w1]; cbn [snd] in Hl.
  - destruct poll_results.
    + pose proof (bind_ret_pair (_get_results job_id job_code) w1) as Hb.
      unfold bind in Hb. rewrite Hb.
      destruct (get_results_trace job_id job_code w1) as (l' & -> & Hl').
      exists (l ++ l')%list. rewrite Hl, app_assoc. split; [reflexivity|].
      assert (Hp : posted_tags (l ++ l') = posted_tags l).
      { rewrite posted_tags_app. destruct Hl' as [-> | ->]; cbn;
          apply app_nil_r. }
      rewrite Hp. split; assumption.
    + exists l. cbn [snd]. repeat split; assumption.
  - exists l. cbn [snd]. repeat split; assumption.
Qed.

(** X5: a submission that the server accepts, waited for: the handle handed
    to [poll_for_results] is the pair the server returned, the result is the
    entry under ["yhat"] with the whole answer, nothing is printed, and the
    trace grows by the submission followed by the poll. *)
Theorem submit_then_poll_round_trip (base : PSRFunction) (name : string)
    (func : decorated (C:=C)) (y X theta Options : pyval) (is_binary : bool)
    (d details : dict) (response job_id job_code : pyval) (e1 e2 : Env C)
    (w : World C) :
  submittable C Options d →
  post_job_srv C (function_type_of base is_binary) y X theta d (remote w)
  = (Ok (response, job_id, job_code), e1) →
  job_id ≠ PyNone → job_code ≠ PyNone →
  poll_for_results_srv C job_id job_code e1 = (Ok (PyDict details), e2) →
  workers._execute_prediction y X theta Options
    (_create_post_job_decorator base name func) true is_binary w
  = (Ok (dict_get details "yhat" PyNone, PyDict details),
     mkWorld e2 (trace w ++ [NetPostJob (function_type_of base is_binary) y X theta d;
                             NetPoll job_id job_code])).
Proof.
  intros Hsub Hsrv Hi Hc Hpoll.
  unfold workers._execute_prediction, bind, _get_results_worker.
  rewrite (wrapper_run_submittable _ _ _ _ _ _ _ _ _ _ Hsub). cbn zeta.
  rewrite Hsrv.
  pose proof (bind_ret_pair (C:=C) (_get_results job_id job_code)) as Hb.
  unfold bind in Hb. rewrite Hb.
  rewrite get_results_run, (is_none_false _ Hi), (is_none_false _ Hc).
  cbn [negb andb remote trace]. rewrite Hpoll. cbn [py_get].
  unfold answered. rewrite (is_none_false _ Hi), andb_false_r. cbn [andb].
  rewrite <- app_assoc. reflexivity.
Qed.

(** X6: deferred retrieval composes: running [_execute_prediction] without
    waiting and then handing the returned pair to [_get_results_worker] is the
    same as running it with [poll_results] set, for any submitter. *)
Theorem deferred_then_poll_is_wait (y X theta Options : pyval)
    (post_function : submitter (C:=C)) (is_binary : bool) (w : World C) :
  bind (workers._execute_prediction y X theta Options post_function false is_binary)
       (fun handle => _get_results_worker (fst handle) (snd handle)) w
  = workers._execute_prediction y X theta Options post_function true is_binary w.
Proof.
  unfold workers._execute_prediction, bind.
  destruct (post_function y X theta Options is_binary w)
    as [[[job_id job_code]|e] w1]; [|reflexivity].
  cbn [ret fst snd].
  pose proof (bind_ret_pair (_get_results_worker job_id job_code) w1) as Hb.
  unfold bind in Hb. symmetry. exact Hb.
Qed.

(** X7: waiting on a submission that came back without a full handle does
    not raise and does not poll: when the server's answer leaves [job_id] or
    [job_code] absent, [_execute_prediction] with [poll_results] set returns
    [(None, None)], and the trace grows by the submission and, only if the
    response is present and both fields are absent, the diagnostic line. *)
Theorem waiting_without_handle (base : PSRFunction) (name : string)
    (func : decorated (C:=C)) (y X theta Options : pyval) (is_binary : bool)
    (d : dict) (response job_id job_code : pyval) (e1 : Env C) (w : World C) :
  submittable C Options d →
  post_job_srv C (function_type_of base is_binary) y X theta d (remote w)
  = (Ok (response, job_id, job_code), e1) →
  job_id = PyNone ∨ job_code = PyNone →
  let ft := function_type_of base is_binary in
  workers._execute_prediction y X theta Options
    (_create_post_job_decorator base name func) true is_binary w
  = (Ok (PyNone, PyNone),
     mkWorld e1 (trace w ++ answered C name ft y X theta d response job_id job_code))
  ∧ filter is_poll (answered C name ft y X theta d response job_id job_code) = [].
Proof.
  intros Hsub Hsrv Habsent ft. subst ft. split.
  - unfold workers._execute_prediction, bind, _get_results_worker.
    rewrite (wrapper_run_submittable _ _ _ _ _ _ _ _ _ _ Hsub). cbn zeta.
    rewrite Hsrv.
    pose proof (bind_ret_pair (C:=C) (_get_results job_id job_code)) as Hb.
    unfold bind in Hb. rewrite Hb. rewrite get_results_run.
    assert (Hguard : negb (is_none job_id) && negb (is_none job_code) = false).
    { destruct Habsent as [-> | ->]; cbn; [reflexivity | apply andb_false_r]. }
    rewrite Hguard. reflexivity.
  - unfold answered.
    destruct (negb (is_none response) && is_none job_id && is_none job_code);
      reflexivity.
Qed.

(** X8: the family each entry point of [_workers] submits under: the four
    functions submit PSR, MAXFIT, GRID and GRID_SINGULARITY, or the binary
    counterpart when [is_binary] is set, and the four [_binary] wrappers
    always the binary counterpart; no run submits under any other tag. *)
Theorem worker_entry_point_tags (y X theta Options : pyval)
    (poll_results is_binary : bool) (w : World C) (t : PSRFunction) :
  let tags (f : pyval → pyval → pyval → pyval → bool → bool → M C (pyval * pyval))
           (b : bool) :=
    posted_tags (added w (snd (f y X theta Options poll_results b w))) in
  (t ∈ tags workers.predict_psr is_binary →
   t = if is_binary then PSR_BINARY else PSR) ∧
  (t ∈ tags workers.predict_maxfit is_binary →
   t = if is_binary then MAXFIT_BINARY else MAXFIT) ∧
  (t ∈ tags workers.predict_grid is_binary →
   t = if is_binary then GRID_BINARY else GRID) ∧
  (t ∈ tags workers.predict_grid_singularity is_binary →
   t = if is_binary then GRID_SINGULARITY_BINARY else GRID_SINGULARITY) ∧
  (t ∈ posted_tags (added w (snd (workers.predict_psr_binary
                                    y X theta Options poll_results w))) →
   t = PSR_BINARY) ∧
  (t ∈ posted_tags (added w (snd (workers.predict_maxfit_binary
                                    y X theta Options poll_results w))) →
   t = MAXFIT_BINARY) ∧
  (t ∈ posted_tags (added w (snd (workers.predict_grid_binary
                                    y X theta Options poll_results w))) →
   t = GRID_BINARY) ∧
  (t ∈ posted_tags (added w (snd (workers.predict_grid_singularity_binary
                                    y X theta Options poll_results w))) →
   t = GRID_SINGULARITY_BINARY).
Proof.
  cbn zeta.
  assert (Hgen : ∀ base name b,
            t ∈ posted_tags (added w (snd (workers._execute_prediction
                   y X theta Options
                   (_create_post_job_decorator base name pass_body)
                   poll_results b w))) →
            t = function_type_of base b).
  { intros base name b Ht.
    destruct (execute_prediction_trace base name pass_body y X theta Options
                poll_results b w) as (l & Hl & Htags & _).
    rewrite (added_app _ _ _ Hl) in Ht. apply Htags, Ht. }
  repeat split; intros Ht; apply Hgen in Ht; rewrite Ht;
    try destruct is_binary; reflexivity.
Qed.

(** X9: the batch module against the worker module, [is_binary] left out.
    [predict_maxfit] behaves the same in both, whether [poll_results] is
    given or left out.  [predict_grid] behaves the same when [poll_results]
    is given; when it is left out the two differ, because the defaults do:
    the batch function waits (it polls a job the server accepted) and the
    worker does not (it never polls).  [predict_grid_singularity] differs
    also in what it submits: on a request whose options reach [post_job] the
    worker submits one job under GRID_SINGULARITY, the batch function one
    job under GRID. *)
Theorem multi_tasks_against_workers (y X theta Options : pyval)
    (d : dict) (w : World C) :
  submittable C Options d →
  (∀ poll_results : option bool,
     call_multi_tasks_predict_maxfit y X theta Options poll_results w
     = call_workers_predict_maxfit y X theta Options poll_results w)
  ∧
  (∀ poll_results : bool,
     call_multi_tasks_predict_grid y X theta Options (Some poll_results) w
     = call_workers_predict_grid y X theta Options (Some poll_results) w)
  ∧
  (call_multi_tasks_predict_grid y X theta Options None w
   = call_workers_predict_grid y X theta Options (Some true) w ∧
   call_workers_predict_grid y X theta Options None w
   = call_workers_predict_grid y X theta Options (Some false) w ∧
   filter is_poll
     (added w (snd (call_workers_predict_grid y X theta Options None w))) = [] ∧
   ∀ response job_id job_code e1,
     post_job_srv C GRID y X theta d (remote w)
     = (Ok (response, job_id, job_code), e1) →
     job_id ≠ PyNone → job_code ≠ PyNone →
     filter is_poll
       (added w (snd (call_multi_tasks_predict_grid y X theta Options None w)))
     = [NetPoll job_id job_code])
  ∧
  (∀ poll_results : option bool,
     posted_tags
       (added w (snd (call_workers_predict_grid_singularity
                        y X theta Options poll_results w)))
     = [GRID_SINGULARITY] ∧
     posted_tags
       (added w (snd (call_multi_tasks_predict_grid_singularity
                        y X theta Options poll_results w)))
     = [GRID]).
Proof.
  intros Hsub. split; [|split; [|split]].
  - intros [p|]; reflexivity.
  - intros p. reflexivity.
  - split; [reflexivity|]. split; [reflexivity|]. split.
    + unfold call_workers_predict_grid, flag, workers.predict_grid,
        workers._execute_prediction, _post_grid_inputs. cbn [default].
      rewrite bind_ret_pair.
      destruct (wrapper_trace GRID "_post_grid_inputs" pass_body
                  y X theta Options false w) as (l & Hl & Hshape).
      rewrite (added_app _ _ _ Hl).
      destruct Hshape as [-> | (d' & [-> | (response & ->)])]; reflexivity.
    + intros response job_id job_code e1 Hsrv Hi Hc.
      unfold call_multi_tasks_predict_grid, flag, multi_tasks.predict_grid,
        _post_grid_inputs, bind. cbn [default].
      rewrite (wrapper_run_submittable _ _ _ _ _ _ _ _ _ _ Hsub). cbn zeta.
      change (function_type_of GRID false) with GRID. rewrite Hsrv.
      pose proof (bind_ret_pair (C:=C) (_get_results job_id job_code)) as Hb.
      unfold bind in Hb. rewrite Hb.
      rewrite get_results_run, (is_none_false _ Hi), (is_none_false _ Hc).
      cbn [negb andb remote trace].
      assert (Hquiet : filter is_poll
                (answered C "_post_grid_inputs" GRID y X theta d
                   response job_id job_code) = []).
      { unfold answered.
        destruct (negb (is_none response) && is_none job_id && is_none job_code);
          reflexivity. }
      destruct (poll_for_results_srv C job_id job_code e1) as [[answer|e] e2];
        cbn [snd]; unfold added; cbn [trace];
        rewrite <- app_assoc, drop_app_length, filter_poll_app, Hquiet;
        reflexivity.
  - intros p. split.
    + destruct (execute_prediction_trace GRID_SINGULARITY
                  "_post_grid_singularity_inputs" pass_body y X theta Options
                  (flag false p) false w) as (l & Hl & _ & Hone).
      unfold call_workers_predict_grid_singularity,
        workers.predict_grid_singularity, _post_grid_singularity_inputs.
      cbn [flag default] in *.
      rewrite (added_app _ _ _ Hl). apply (Hone d Hsub).
    + destruct (execute_prediction_trace GRID "_post_grid_inputs" pass_body
                  y X theta Options (flag true p) false w) as (l & Hl & _ & Hone).
      change (call_multi_tasks_predict_grid_singularity y X theta Options p w)
        with (workers._execute_prediction y X theta Options
                (_create_post_job_decorator GRID "_post_grid_inputs" pass_body)
                (flag true p) false w).
      rewrite (added_app _ _ _ Hl). apply (Hone d Hsub).
Qed.

End ExecutorMore.

(** ** api_client.py *)

Section ApiClientMore.
Context {C : Collaborators}.
Import api_client.

(** One run of any of the four public prediction functions, case by case. *)
Lemma public_function_run (I : Imports) (family : PSRFunction)
    (f : pyval → pyval → pyval → pyval → bool → M C prediction)
    (y X theta Options : pyval) (is_return_receipt : bool) (w : World C) :
  public_function I family = Some f →
  f y X theta Options is_return_receipt w =
  let start_time := fst (clock C (remote w)) in
  match determine_task_type I y X theta with
  | Raise e => (Raise e, after_clock w)
  | Ok task_type =>
    match _TASK_MAP !! task_type with
    | None => (Raise (TypeError "'NoneType' object is not callable"), after_clock w)
    | Some executor =>
      match run_executor I executor family y X theta Options (after_clock w) with
      | (Raise e, w1) => (Raise e, w1)
      | (Ok (yhat, yhat_details), w1) =>
          let end_time := fst (clock C (remote w1)) in
          (Ok (if is_return_receipt
               then Triple yhat yhat_details
                      (mkReceipt family y X theta Options yhat
                         (end_time - start_time)%float)
               else Pair yhat yhat_details),
           after_clock w1)
      end
    end
  end.
Proof.
  intros Hf.
  destruct family; try discriminate Hf; injection Hf as <-;
    unfold predict_psr, predict_maxfit, predict_grid, predict_grid_singularity;
    unfold bind, time_time, lift, after_clock;
    (destruct (clock C (remote w)) as [start_time e0]; cbn [fst snd];
     destruct (determine_task_type I y X theta) as [task_type|e]; [|reflexivity];
     unfold call_prediction_function;
     destruct (_TASK_MAP !! task_type) as [executor|]; [|reflexivity];
     destruct (run_executor I executor _ y X theta Options (mkWorld e0 (trace w)))
       as [[[yhat yhat_details]|e] w1]; [|reflexivity];
     destruct (clock C (remote w1)) as [end_time e1]; cbn [fst snd];
     destruct is_return_receipt; reflexivity).
Qed.

(** X10: what a public prediction function returns when all goes well.  The
    executor the task table lists for the task kind is run once, with the
    function's own family, in the world left by the first reading of the
    clock; its two results are returned as they are; the receipt, when asked
    for, records that family, the four arguments, [yhat], and the difference
    between the reading of the clock after the executor and the one before
    the routing. *)
Theorem public_function_success (I : Imports) (family : PSRFunction)
    (f : pyval → pyval → pyval → pyval → bool → M C prediction)
    (y X theta Options : pyval) (w w1 : World C)
    (task_type : JobType) (executor : executor) (yhat yhat_details : pyval) :
  public_function I family = Some f →
  determine_task_type I y X theta = Ok task_type →
  _TASK_MAP !! task_type = Some executor →
  run_executor I executor family y X theta Options (after_clock w)
  = (Ok (yhat, yhat_details), w1) →
  f y X theta Options false w = (Ok (Pair yhat yhat_details), after_clock w1)
  ∧
  f y X theta Options true w
  = (Ok (Triple yhat yhat_details
           (mkReceipt family y X theta Options yhat
              (fst (clock C (remote w1)) - fst (clock C (remote w)))%float)),
     after_clock w1).
Proof.
  intros Hf Hk Ht Hrun.
  rewrite !(public_function_run I family f _ _ _ _ _ _ Hf). cbn zeta.
  rewrite Hk, Ht, Hrun. split; reflexivity.
Qed.

(** X11: the receipt option changes nothing else, for every public
    prediction function ([predict_maxfit], [predict_grid] and
    [predict_grid_singularity] as well as [predict_psr]): from the same world
    the two runs raise the same exception or return the same [yhat] and
    [yhat_details], they leave the same world, and only the run with the
    option set carries a receipt. *)
Theorem public_function_receipt_neutral (I : Imports) (family : PSRFunction)
    (f : pyval → pyval → pyval → pyval → bool → M C prediction)
    (y X theta Options : pyval) (w : World C) :
  public_function I family = Some f →
  match f y X theta Options false w, f y X theta Options true w with
  | (Ok p, w1), (Ok q, w2) =>
      primary p = primary q ∧ w1 = w2 ∧
      receipt_of p = None ∧ is_Some (receipt_of q)
  | (Raise e1, w1), (Raise e2, w2) => e1 = e2 ∧ w1 = w2
  | _, _ => False
  end.
Proof.
  intros Hf. rewrite !(public_function_run I family f _ _ _ _ _ _ Hf). cbn zeta.
  destruct (determine_task_type I y X theta) as [task_type|e]; [|auto].
  destruct (_TASK_MAP !! task_type) as [executor|]; [|auto].
  destruct (run_executor I executor family y X theta Options (after_clock w))
    as [[[yhat yhat_details]|e] w1]; [|auto].
  cbn. eauto 6.
Qed.

(** X12: failures inside a public prediction function are not caught.  An
    exception raised by the router comes out unchanged and no executor is
    run (only the clock has been read, the trace is as it was); an exception
    raised by the executor comes out unchanged, in the world the executor
    left, and the clock is not read again. *)
Theorem public_function_failures (I : Imports) (family : PSRFunction)
    (f : pyval → pyval → pyval → pyval → bool → M C prediction)
    (y X theta Options : pyval) (is_return_receipt : bool) (w : World C) :
  public_function I family = Some f →
  (∀ e, determine_task_type I y X theta = Raise e →
        f y X theta Options is_return_receipt w = (Raise e, after_clock w) ∧
        trace (after_clock w) = trace w)
  ∧
  (∀ task_type executor e w1,
     determine_task_type I y X theta = Ok task_type →
     _TASK_MAP !! task_type = Some executor →
     run_executor I executor family y X theta Options (after_clock w)
     = (Raise e, w1) →
     f y X theta Options is_return_receipt w = (Raise e, w1)).
Proof.
  intros Hf. split.
  - intros e He. rewrite (public_function_run I family f _ _ _ _ _ _ Hf).
    cbn zeta. rewrite He. split; reflexivity.
  - intros task_type executor e w1 Hk Ht Hrun.
    rewrite (public_function_run I family f _ _ _ _ _ _ Hf). cbn zeta.
    rewrite Hk, Ht, Hrun. reflexivity.
Qed.

(** X13: every public prediction function goes through the same table: a
    task kind other than SINGLE, MULTI_Y and MULTI_THETA ends
    [predict_maxfit], [predict_grid] and [predict_grid_singularity], like
    [predict_psr], in the [TypeError] of calling [None], with no executor run
    and the trace as it was. *)
Theorem public_function_unrouted (I : Imports) (family : PSRFunction)
    (f : pyval → pyval → pyval → pyval → bool → M C prediction)
    (y X theta Options : pyval) (is_return_receipt : bool) (w : World C)
    (task_type : JobType) :
  public_function I family = Some f →
  determine_task_type I y X theta = Ok task_type →
  task_type ≠ SINGLE → task_type ≠ MULTI_Y → task_type ≠ MULTI_THETA →
  f y X theta Options is_return_receipt w
  = (Raise (TypeError "'NoneType' object is not callable"), after_clock w)
  ∧ trace (after_clock w) = trace w.
Proof.
  intros Hf Hk H1 H2 H3.
  rewrite (public_function_run I family f _ _ _ _ _ _ Hf). cbn zeta.
  rewrite Hk, task_map_lookup.
  destruct task_type; try congruence. split; reflexivity.
Qed.

End ApiClientMore.

(** ** psrlib.py *)

Section PsrlibMore.
Context {C : Collaborators}.

(** X14: with [csa_postmaster] bound to the postmaster module, [predict] and
    [predict_maxfit] of [psrlib] cannot submit anything either: the keywords
    they pass ([threshold], [most_eval], ...) are not parameters of the
    submitters, which take [(y, X, theta, Options, is_binary)], so every call
    ends in [TypeError] at the call of the submitter, the world untouched. *)
Theorem psrlib_keywords_rejected
    (y X theta threshold is_threshold_percent threshold_range stepsize
       most_eval eval_type cov_inv : pyval)
    (poll_results : bool) (w : World C) :
  (∃ msg,
     psrlib.predict postmaster.namespace
       y X theta threshold is_threshold_percent most_eval eval_type cov_inv
       poll_results w
     = (Raise (TypeError msg), w))
  ∧
  (∃ msg,
     psrlib.predict_maxfit postmaster.namespace
       y X theta threshold_range stepsize most_eval eval_type cov_inv poll_results w
     = (Raise (TypeError msg), w)).
Proof. split; eexists; reflexivity. Qed.

End PsrlibMore.

(** ** Quota queries *)

Section QuotaMore.
Context {S : quota.Services}.
Import quota.

(** X15: which API key a quota query uses.  A key that is given (anything
    but [None]) is sent as it is and the environment is not consulted; with
    [None] the environment is consulted once, before the request, and the
    first of the two values it yields is sent; if the lookup raises, no
    request is made. *)
Theorem quota_key_precedence (quota_type api_key : pyval) (w : QWorld S) :
  (api_key ≠ PyNone →
   get_api_quota quota_type api_key w
   = (fst (get_quota_srv S quota_type api_key (qenv w)),
      mkQWorld (snd (get_quota_srv S quota_type api_key (qenv w)))
        (qlog w ++ [QuotaRequest quota_type api_key])))
  ∧
  (∀ key other e1,
     get_apikeys_env S (qenv w) = (Ok (PyTuple [key; other]), e1) →
     get_api_quota quota_type PyNone w
     = (fst (get_quota_srv S quota_type key e1),
        mkQWorld (snd (get_quota_srv S quota_type key e1))
          (qlog w ++ [EnvLookup; QuotaRequest quota_type key])))
  ∧
  (∀ e e1,
     get_apikeys_env S (qenv w) = (Raise e, e1) →
     get_api_quota quota_type PyNone w
     = (Raise e, mkQWorld e1 (qlog w ++ [EnvLookup]))).
Proof.
  unfold get_api_quota, _get_quota. split; [|split].
  - intros Hkey. rewrite (is_none_false _ Hkey). unfold get_quota.
    destruct (get_quota_srv S quota_type api_key (qenv w)); reflexivity.
  - intros key other e1 Henv. cbn [is_none]. unfold _get_apikeys.
    rewrite Henv. cbn [unpack2]. unfold get_quota. cbn [qenv qlog].
    destruct (get_quota_srv S quota_type key e1).
    rewrite <- app_assoc. reflexivity.
  - intros e e1 Henv. cbn [is_none]. unfold _get_apikeys. rewrite Henv.
    reflexivity.
Qed.

End QuotaMore.

(** ** Worked instances *)

Ltac options_reach_post_job :=
  eexists; split; [reflexivity | split; reflexivity].

Lemma get_results_polls_once_witness :
  postmaster._get_results (PyInt 0) (PyStr "c0de") (demo.w0 true)
  = (Ok (PyList [PyFloat 1],
         PyDict [("yhat", PyList [PyFloat 1]); ("fit", PyFloat 0)]),
     @mkWorld (demo.service true) 1%nat [NetPoll (PyInt 0) (PyStr "c0de")]).
Proof.
  apply (proj1 (get_results_polls_once (C:=demo.service true)
                  (PyInt 0) (PyStr "c0de")
                  [("yhat", PyList [PyFloat 1]); ("fit", PyFloat 0)]
                  1%nat (demo.w0 true)
                  ltac:(discriminate) ltac:(discriminate) eq_refl)).
Defined.

(** An answer without the key: [None] stands in for [yhat]. *)
Example get_results_without_yhat :
  postmaster._get_results (PyInt 0) (PyStr "c0de")
    (scripted.w0 (Raise (RemoteError "unused")) (Ok (PyDict [("fit", PyFloat 0)])))
  = (Ok (PyNone, PyDict [("fit", PyFloat 0)]),
     @mkWorld (scripted.service _ _) 1%nat [NetPoll (PyInt 0) (PyStr "c0de")]).
Proof. reflexivity. Qed.

Lemma get_results_poll_failures_witness :
  postmaster._get_results (PyInt 0) (PyStr "c0de")
    (scripted.w0 (Raise (RemoteError "unused")) (Raise (RemoteError "timed out")))
  = (Raise (RemoteError "timed out"),
     @mkWorld (scripted.service _ _) 1%nat [NetPoll (PyInt 0) (PyStr "c0de")]).
Proof.
  apply (proj1 (get_results_poll_failures
                  (C:=scripted.service (Raise (RemoteError "unused"))
                        (Raise (RemoteError "timed out")))
                  (PyInt 0) (PyStr "c0de") (scripted.w0 _ _)
                  ltac:(discriminate) ltac:(discriminate))
           (RemoteError "timed out") 1%nat eq_refl).
Defined.

(** [Options] given as [None]: nothing leaves the process. *)
Lemma wrapper_rejects_before_network_witness :
  ∃ msg,
    postmaster._post_predict_inputs demo.y demo.X demo.theta PyNone false (demo.w0 true)
    = (Raise (AttributeError msg), demo.w0 true).
Proof.
  eexists.
  apply (proj1 (wrapper_rejects_before_network (C:=demo.service true)
                  PSR "_post_predict_inputs" postmaster.pass_body
                  demo.y demo.X demo.theta PyNone false (demo.w0 true))
           _ eq_refl).
Defined.

Lemma wrapper_propagates_post_job_error_witness :
  postmaster._post_maxfit_inputs demo.y demo.X demo.theta demo.Options true
    (scripted.w0 (Raise (RemoteError "connection refused")) (Ok PyNone))
  = (Raise (RemoteError "connection refused"),
     @mkWorld (scripted.service _ _) 1%nat
       [NetPostJob MAXFIT_BINARY demo.y demo.X demo.theta [("threshold", PyNone)]]).
Proof.
  apply (wrapper_propagates_post_job_error
           (C:=scripted.service (Raise (RemoteError "connection refused")) (Ok PyNone))
           MAXFIT "_post_maxfit_inputs" postmaster.pass_body
           demo.y demo.X demo.theta demo.Options true [("threshold", PyNone)]
           (RemoteError "connection refused") 1%nat (scripted.w0 _ _));
    [options_reach_post_job | reflexivity].
Defined.

Lemma submit_then_poll_round_trip_witness :
  workers.predict_grid demo.y demo.X demo.theta demo.Options true false (demo.w0 true)
  = (Ok (PyList [PyFloat 1],
         PyDict [("yhat", PyList [PyFloat 1]); ("fit", PyFloat 0)]),
     @mkWorld (demo.service true) 2%nat
       [NetPostJob GRID demo.y demo.X demo.theta [("threshold", PyNone)];
        NetPoll (PyInt 0) (PyStr "c0de")]).
Proof.
  apply (submit_then_poll_round_trip (C:=demo.service true)
           GRID "_post_grid_inputs" postmaster.pass_body
           demo.y demo.X demo.theta demo.Options false
           [("threshold", PyNone)]
           [("yhat", PyList [PyFloat 1]); ("fit", PyFloat 0)]
           (PyObject "Response" []) (PyInt 0) (PyStr "c0de") 1%nat 2%nat
           (demo.w0 true));
    [options_reach_post_job | reflexivity | discriminate | discriminate | reflexivity].
Defined.

(** A handle with its code missing, waited for: [(None, None)], no poll and
    no diagnostic. *)
Lemma waiting_without_handle_witness :
  workers.predict_psr demo.y demo.X demo.theta demo.Options true false
    (scripted.w0 (Ok (PyStr "accepted", PyInt 3, PyNone)) (Ok PyNone))
  = (Ok (PyNone, PyNone),
     @mkWorld (scripted.service _ _) 1%nat
       [NetPostJob PSR demo.y demo.X demo.theta [("threshold", PyNone)]]).
Proof.
  apply (proj1 (waiting_without_handle
                  (C:=scripted.service (Ok (PyStr "accepted", PyInt 3, PyNone)) (Ok PyNone))
                  PSR "_post_predict_inputs" postmaster.pass_body
                  demo.y demo.X demo.theta demo.Options false
                  [("threshold", PyNone)] (PyStr "accepted") (PyInt 3) PyNone 1%nat
                  (scripted.w0 _ _)
                  ltac:(options_reach_post_job) eq_refl (or_intror eq_refl))).
Defined.

Lemma multi_tasks_against_workers_witness :
  filter is_poll
    (added (demo.w0 true)
       (snd (call_multi_tasks_predict_grid
               demo.y demo.X demo.theta demo.Options None (demo.w0 true))))
  = [NetPoll (PyInt 0) (PyStr "c0de")]
  ∧
  filter is_poll
    (added (demo.w0 true)
       (snd (call_workers_predict_grid
               demo.y demo.X demo.theta demo.Options None (demo.w0 true))))
  = [].
Proof.
  destruct (multi_tasks_against_workers (C:=demo.service true)
              demo.y demo.X demo.theta demo.Options [("threshold", PyNone)]
              (demo.w0 true) ltac:(options_reach_post_job))
    as (_ & _ & (_ & _ & Hworker & Hbatch) & _).
  split; [|exact Hworker].
  apply (Hbatch (PyObject "Response" []) (PyInt 0) (PyStr "c0de") 1%nat);
    [reflexivity | discriminate | discriminate].
Defined.

Lemma public_function_success_witness :
  api_client.predict_grid
    (scripted.imports (post:=Ok (PyNone, PyNone, PyNone)) (poll:=Ok PyNone)
       (Ok MULTI_Y) (Ok (PyList [PyFloat 1; PyFloat 2], PyDict [])))
    demo.y2 demo.X demo.theta demo.Options true (scripted.w0 _ _)
  = (Ok (api_client.Triple (PyList [PyFloat 1; PyFloat 2]) (PyDict [])
           (api_client.mkReceipt GRID demo.y2 demo.X demo.theta demo.Options
              (PyList [PyFloat 1; PyFloat 2]) (0 - 0)%float)),
     scripted.w0 _ _).
Proof.
  apply (proj2 (public_function_success
                  (C:=scripted.service (Ok (PyNone, PyNone, PyNone)) (Ok PyNone))
                  (scripted.imports (Ok MULTI_Y)
                     (Ok (PyList [PyFloat 1; PyFloat 2], PyDict [])))
                  GRID _ demo.y2 demo.X demo.theta demo.Options
                  (scripted.w0 _ _) (scripted.w0 _ _)
                  MULTI_Y api_client.run_multi_y
                  (PyList [PyFloat 1; PyFloat 2]) (PyDict [])
                  eq_refl eq_refl eq_refl eq_refl)).
Defined.

Lemma public_function_receipt_neutral_witness :
  let I := scripted.imports (post:=Ok (PyNone, PyNone, PyNone)) (poll:=Ok PyNone)
             (Ok SINGLE) (Ok (PyList [PyFloat 1], PyDict [])) in
  match api_client.predict_maxfit I demo.y demo.X demo.theta demo.Options false
          (scripted.w0 _ _),
        api_client.predict_maxfit I demo.y demo.X demo.theta demo.Options true
          (scripted.w0 _ _) with
  | (Ok p, w1), (Ok q, w2) =>
      api_client.primary p = api_client.primary q ∧ w1 = w2 ∧
      api_client.receipt_of p = None ∧ is_Some (api_client.receipt_of q)
  | (Raise e1, w1), (Raise e2, w2) => e1 = e2 ∧ w1 = w2
  | _, _ => False
  end.
Proof.
  intros I.
  apply (public_function_receipt_neutral
           (C:=scripted.service (Ok (PyNone, PyNone, PyNone)) (Ok PyNone))
           I MAXFIT _ demo.y demo.X demo.theta demo.Options (scripted.w0 _ _) eq_refl).
Defined.

Lemma public_function_failures_witness :
  api_client.predict_grid_singularity
    (scripted.imports (post:=Ok (PyNone, PyNone, PyNone)) (poll:=Ok PyNone)
       (Raise (ValueError "y and theta are both batched"))
       (Ok (PyNone, PyNone)))
    demo.y2 demo.X demo.theta3 demo.Options false (scripted.w0 _ _)
  = (Raise (ValueError "y and theta are both batched"), scripted.w0 _ _).
Proof.
  apply (proj1 (public_function_failures
                  (C:=scripted.service (Ok (PyNone, PyNone, PyNone)) (Ok PyNone))
                  (scripted.imports (Raise (ValueError "y and theta are both batched"))
                     (Ok (PyNone, PyNone)))
                  GRID_SINGULARITY _ demo.y2 demo.X demo.theta3 demo.Options false
                  (scripted.w0 _ _) eq_refl)
           (ValueError "y and theta are both batched") eq_refl).
Defined.

Lemma public_function_unrouted_witness :
  api_client.predict_maxfit
    (scripted.imports (post:=Ok (PyNone, PyNone, PyNone)) (poll:=Ok PyNone)
       (Ok (JOBTYPE_OTHER "None")) (Ok (PyNone, PyNone)))
    demo.y demo.X demo.theta demo.Options false (scripted.w0 _ _)
  = (Raise (TypeError "'NoneType' object is not callable"), scripted.w0 _ _).
Proof.
  apply (proj1 (public_function_unrouted
                  (C:=scripted.service (Ok (PyNone, PyNone, PyNone)) (Ok PyNone))
                  (scripted.imports (Ok (JOBTYPE_OTHER "None")) (Ok (PyNone, PyNone)))
                  MAXFIT _ demo.y demo.X demo.theta demo.Options false
                  (scripted.w0 _ _) (JOBTYPE_OTHER "None")
                  eq_refl eq_refl
                  ltac:(discriminate) ltac:(discriminate) ltac:(discriminate))).
Defined.

(** A key given by the caller, the empty string included, goes out as it
    is. *)
Lemma quota_key_precedence_witness :
  quota.get_api_quota (PyStr "summary") (PyStr "") quota.q0
  = (Ok (PyDict [("quota_type", PyStr "summary"); ("key", PyStr "")]),
     @quota.mkQWorld quota.toy 1%nat
       [quota.QuotaRequest (PyStr "summary") (PyStr "")]).
Proof.
  apply (proj1 (quota_key_precedence (S:=quota.toy)
                  (PyStr "summary") (PyStr "") quota.q0)
           ltac:(discriminate)).
Defined.

(** Without a key the environment is asked first. *)
Example quota_key_from_environment :
  quota.get_api_quota (PyStr "used") PyNone quota.q0
  = (Ok (PyDict [("quota_type", PyStr "used"); ("key", PyStr "env-key")]),
     @quota.mkQWorld quota.toy 1%nat
       [quota.EnvLookup; quota.QuotaRequest (PyStr "used") (PyStr "env-key")]).
Proof. reflexivity. Qed.

(** ** Who talks to the service *)

Section Separation.
Context {C : Collaborators}.
Import postmaster.

(** X16: submitting and polling never mix.  A run of the submission wrapper
    adds no poll to the trace, whatever its arguments and whatever the server
    answers; a run of [_get_results] adds no submission and prints
    nothing. *)
Theorem submitters_never_poll_and_pollers_never_submit (base : PSRFunction)
    (name : string) (func : decorated (C:=C)) (y X theta Options : pyval)
    (is_binary : bool) (job_id job_code : pyval) (w : World C) :
  filter is_poll
    (added w (snd (_create_post_job_decorator base name func
                     y X theta Options is_binary w))) = []
  ∧ posted_tags (added w (snd (_get_results job_id job_code w))) = []
  ∧ ∀ line, Stdout line ∉ added w (snd (_get_results job_id job_code w)).
Proof.
  split; [|split].
  - destruct (wrapper_trace base name func y X theta Options is_binary w)
      as (l & Hl & Hshape).
    unfold added. rewrite Hl, drop_app_length.
    destruct Hshape as [-> | (d & [-> | (response & ->)])]; reflexivity.
  - destruct (get_results_trace job_id job_code w) as (l & Hl & Hshape).
    unfold added. rewrite Hl, drop_app_length.
    destruct Hshape as [-> | ->]; reflexivity.
  - intros line Hin.
    destruct (get_results_trace job_id job_code w) as (l & Hl & Hshape).
    unfold added in Hin. rewrite Hl, drop_app_length in Hin.
    destruct Hshape as [-> | ->].
    + apply elem_of_nil in Hin as [].
    + apply elem_of_cons in Hin as [Hin | Hin]; [discriminate Hin|].
      apply elem_of_nil in Hin as [].
Qed.

End Separation.
